(** * Octra hardware-wallet simulator backend: model and verification

A shallow embedding of the session state machine
([services/device_simulator.py]), the computation stub
([services/fhe_service.py]) and the broadcast hub
([services/websocket_manager.py]), with the pydantic models of
[models/device.py] and [models/fhe.py] they operate on. *)

From Stdlib Require Import ZArith Lia DecimalString PrimFloat Sorted.
From Stdlib Require Strings.Byte Strings.Ascii.
From stdpp Require Import gmap strings list.

Local Open Scope Z_scope.
(* 0.3 has no exact binary64 value; as in Python, the closest one is meant. *)
#[local] Set Warnings "-inexact-float".

(** ** Python values

The services return plain dicts whose key sets differ from branch to
branch; a dict literal is an association list in insertion order. *)

Definition datetime := Z.

#[local] Unset Elimination Schemes.
Inductive Any : Type :=
| ANone
| ABool (b : bool)
| AInt (z : Z)
| AStr (s : string)
| ADatetime (t : datetime)
| ADict (d : list (string * Any)).
#[local] Set Elimination Schemes.

Definition Dict := list (string * Any).

(** [d.get(k)] on a dict literal. *)
Fixpoint dict_get (k : string) (d : Dict) : option Any :=
  match d with
  | [] => None
  | (k', v) :: d' => if String.eqb k k' then Some v else dict_get k d'
  end.

(** [str(n)] and [f"{n}"] for an int. *)
Definition str_of_int (n : Z) : string :=
  NilZero.string_of_int (Z.to_int n).

(** [s[:n]] for a string: the first [n] characters, or all of [s] when it is
    shorter. *)
Definition str_prefix (n : nat) (s : string) : string := String.substring 0 n s.

(** [l[i:]] for a list, with Python's treatment of a negative or
    out-of-range start. *)
Definition slice_from {A} (i : Z) (l : list A) : list A :=
  let len := Z.of_nat (length l) in
  let start := if i <? 0 then Z.max (len + i) 0 else Z.min i len in
  drop (Z.to_nat start) l.

Definition of_option {A} (f : A → Any) (o : option A) : Any :=
  match o with Some a => f a | None => ANone end.

(** Exceptions the services raise: the generic [Exception(msg)] of the state
    checks, the [AttributeError] of an attribute read on [None], and
    pydantic's [ValidationError]. *)
Inductive PyExn : Type :=
| Exception (msg : string)
| AttributeError (msg : string)
| ValidationError (msg : string).

Inductive Result (A : Type) : Type :=
| Ok (a : A)
| Raise (e : PyExn).
Arguments Ok {A} a.
Arguments Raise {A} e.

(** ** The library functions the services call

Pure functions of external libraries are an interface; the values of the
clock and of the random sources during one call are the call's [Env]. *)

Class Runtime := {
  sha256_hexdigest : string → string;   (* hashlib.sha256(s.encode()).hexdigest() *)
  isoformat : datetime → string;        (* datetime.isoformat() *)
  json_dumps : Dict → string;           (* json.dumps(message, default=str) *)
}.

Record Env := {
  uuid4 : nat → string;        (* the n-th str(uuid.uuid4()) of the call *)
  utcnow : nat → datetime;     (* the n-th datetime.utcnow() of the call *)
  token_hex : nat → string;    (* secrets.token_hex(nbytes) *)
  time_time : nat → float;     (* the n-th time.time() of the call *)
}.

(** ** models/device.py *)

Module DeviceType.
Inductive t := LEDGER | TREZOR | OCTRA.
Definition value (x : t) : string :=
  match x with LEDGER => "ledger" | TREZOR => "trezor" | OCTRA => "octra" end.
End DeviceType.

Module DeviceScreen.
Inductive t := HOME | WALLET | CONFIRM | SIGNED | ERROR.
Definition value (x : t) : string :=
  match x with
  | HOME => "home" | WALLET => "wallet" | CONFIRM => "confirm"
  | SIGNED => "signed" | ERROR => "error"
  end.
End DeviceScreen.

Module LogLevel.
Inductive t := INFO | SUCCESS | WARNING | ERROR.
Definition value (x : t) : string :=
  match x with
  | INFO => "info" | SUCCESS => "success" | WARNING => "warning" | ERROR => "error"
  end.
End LogLevel.

Module DeviceInfo.
Record t := {
  device_type : DeviceType.t;
  name : string;
  firmware_version : option string;
  serial_number : option string;
}.
Definition dict (x : t) : Dict :=
  [("device_type", AStr (DeviceType.value (device_type x)));
   ("name", AStr (name x));
   ("firmware_version", of_option AStr (firmware_version x));
   ("serial_number", of_option AStr (serial_number x))].
End DeviceInfo.

Module DeviceState.
Record t := {
  is_connected : bool;
  is_unlocked : bool;
  screen : DeviceScreen.t;
  balance : string;
  address : string;
  awaiting_confirmation : bool;
  last_activity : option datetime;
  device_info : option DeviceInfo.t;
}.
(** [DeviceState()]: every field at its declared default. *)
Definition default : t := {|
    is_connected := false;
    is_unlocked := false;
    screen := DeviceScreen.HOME;
    balance := "0.00000000";
    address := "octra1...";
    awaiting_confirmation := false;
    last_activity := None;
    device_info := None;
  |}.
Definition dict (x : t) : Dict :=
  [("is_connected", ABool (is_connected x));
   ("is_unlocked", ABool (is_unlocked x));
   ("screen", AStr (DeviceScreen.value (screen x)));
   ("balance", AStr (balance x));
   ("address", AStr (address x));
   ("awaiting_confirmation", ABool (awaiting_confirmation x));
   ("last_activity", of_option ADatetime (last_activity x));
   ("device_info", of_option (λ d, ADict (DeviceInfo.dict d)) (device_info x))].

(** Attribute assignments [self.state.<field> = v]. *)
Definition set_is_connected (v : bool) (x : t) : t :=
  {| is_connected := v; is_unlocked := is_unlocked x; screen := screen x;
     balance := balance x; address := address x;
     awaiting_confirmation := awaiting_confirmation x;
     last_activity := last_activity x; device_info := device_info x |}.
Definition set_is_unlocked (v : bool) (x : t) : t :=
  {| is_connected := is_connected x; is_unlocked := v; screen := screen x;
     balance := balance x; address := address x;
     awaiting_confirmation := awaiting_confirmation x;
     last_activity := last_activity x; device_info := device_info x |}.
Definition set_screen (v : DeviceScreen.t) (x : t) : t :=
  {| is_connected := is_connected x; is_unlocked := is_unlocked x; screen := v;
     balance := balance x; address := address x;
     awaiting_confirmation := awaiting_confirmation x;
     last_activity := last_activity x; device_info := device_info x |}.
Definition set_balance (v : string) (x : t) : t :=
  {| is_connected := is_connected x; is_unlocked := is_unlocked x; screen := screen x;
     balance := v; address := address x;
     awaiting_confirmation := awaiting_confirmation x;
     last_activity := last_activity x; device_info := device_info x |}.
Definition set_address (v : string) (x : t) : t :=
  {| is_connected := is_connected x; is_unlocked := is_unlocked x; screen := screen x;
     balance := balance x; address := v;
     awaiting_confirmation := awaiting_confirmation x;
     last_activity := last_activity x; device_info := device_info x |}.
Definition set_awaiting_confirmation (v : bool) (x : t) : t :=
  {| is_connected := is_connected x; is_unlocked := is_unlocked x; screen := screen x;
     balance := balance x; address := address x;
     awaiting_confirmation := v;
     last_activity := last_activity x; device_info := device_info x |}.
Definition set_last_activity (v : option datetime) (x : t) : t :=
  {| is_connected := is_connected x; is_unlocked := is_unlocked x; screen := screen x;
     balance := balance x; address := address x;
     awaiting_confirmation := awaiting_confirmation x;
     last_activity := v; device_info := device_info x |}.
Definition set_device_info (v : option DeviceInfo.t) (x : t) : t :=
  {| is_connected := is_connected x; is_unlocked := is_unlocked x; screen := screen x;
     balance := balance x; address := address x;
     awaiting_confirmation := awaiting_confirmation x;
     last_activity := last_activity x; device_info := v |}.
End DeviceState.

Module TransactionRequest.
Record t := {
  to_address : string;
  amount : string;
  fee : option string;
  memo : option string;
  gas_limit : option Z;
}.
Definition dict (x : t) : Dict :=
  [("to_address", AStr (to_address x));
   ("amount", AStr (amount x));
   ("fee", of_option AStr (fee x));
   ("memo", of_option AStr (memo x));
   ("gas_limit", of_option AInt (gas_limit x))].
End TransactionRequest.

Module SignatureResult.
Record t := {
  signature : string;
  transaction_hash : string;
  signed_at : datetime;
  device_type : DeviceType.t;
}.
Definition dict (x : t) : Dict :=
  [("signature", AStr (signature x));
   ("transaction_hash", AStr (transaction_hash x));
   ("signed_at", ADatetime (signed_at x));
   ("device_type", AStr (DeviceType.value (device_type x)))].
End SignatureResult.

Module LogEntry.
Record t := {
  id : string;
  timestamp : datetime;
  level : LogLevel.t;
  message : string;
  device_type : option DeviceType.t;
  context : option Dict;
}.
Definition dict (x : t) : Dict :=
  [("id", AStr (id x));
   ("timestamp", ADatetime (timestamp x));
   ("level", AStr (LogLevel.value (level x)));
   ("message", AStr (message x));
   ("device_type", of_option (λ d, AStr (DeviceType.value d)) (device_type x));
   ("context", of_option ADict (context x))].
End LogEntry.

Module AddressInfo.
Record t := {
  address : string;
  derivation_path : string;
  public_key : string;
  address_type : string;
}.
End AddressInfo.

(** ** services/device_simulator.py *)

Module DeviceSimulator.

(** The attributes [__init__] sets and some method assigns afterwards.
    [default_pin], [max_pin_attempts], [mock_addresses] and [mock_balances]
    are assigned in [__init__] only, so they are constants below. *)
Record t := {
  state : DeviceState.t;
  logs : list LogEntry.t;
  pending_transaction : option TransactionRequest.t;
  pin_attempts : Z;
}.

Definition default_pin : string := "1234".
Definition max_pin_attempts : Z := 3.

(** The tables are keyed by [DeviceType], a [str] enum: a member hashes and
    compares as its value. *)
Definition mock_addresses : gmap string string :=
  <["ledger" := "octra1qpzry9x8gf2tvdw0s3jn54khce6mua7l5ta2m8c"]>
  (<["trezor" := "octra1abc123def456ghi789jkl012mno345pqr678stu"]>
  (<["octra" := "octra1xyz789abc123def456ghi789jkl012mno345pqr"]> ∅)).

Definition mock_balances : gmap string string :=
  <["ledger" := "125.80000000"]>
  (<["trezor" := "89.45123456"]>
  (<["octra" := "203.12345678"]> ∅)).

(** [DeviceSimulator()] *)
Definition init : t := {|
  state := DeviceState.default;
  logs := [];
  pending_transaction := None;
  pin_attempts := 0;
|}.

Definition set_state (v : DeviceState.t) (self : t) : t :=
  {| state := v; logs := logs self;
     pending_transaction := pending_transaction self;
     pin_attempts := pin_attempts self |}.
Definition set_logs (v : list LogEntry.t) (self : t) : t :=
  {| state := state self; logs := v;
     pending_transaction := pending_transaction self;
     pin_attempts := pin_attempts self |}.
Definition set_pending_transaction (v : option TransactionRequest.t) (self : t) : t :=
  {| state := state self; logs := logs self;
     pending_transaction := v;
     pin_attempts := pin_attempts self |}.
Definition set_pin_attempts (v : Z) (self : t) : t :=
  {| state := state self; logs := logs self;
     pending_transaction := pending_transaction self;
     pin_attempts := v |}.

(** *** Methods as state transformers

A method runs on the simulator and either returns or raises; what it
assigned before raising stays assigned. *)
Definition M (A : Type) : Type := t → Result A * t.

#[global] Instance M_ret : MRet M := λ A a self, (Ok a, self).
#[global] Instance M_bind : MBind M := λ A B f m self,
  match m self with
  | (Ok a, self') => f a self'
  | (Raise e, self') => (Raise e, self')
  end.

Definition raise {A} (e : PyExn) : M A := λ self, (Raise e, self).
Definition get : M t := λ self, (Ok self, self).
Definition modify (f : t → t) : M () := λ self, (Ok (), f self).
(** [self.state.<field> = v] *)
Definition modify_state (f : DeviceState.t → DeviceState.t) : M () :=
  modify (λ self, set_state (f (state self)) self).

(** [await asyncio.sleep(seconds)]: a suspension point; the session is not
    touched while the method is suspended (operations are serialized). *)
Definition asyncio_sleep (seconds : float) : M () := mret ().

Definition _add_log (id : string) (timestamp : datetime)
    (level : LogLevel.t) (message : string) (context : option Dict) : M () :=
  self ← get;
  let log_entry := {|
    LogEntry.id := id;
    LogEntry.timestamp := timestamp;
    LogEntry.level := level;
    LogEntry.message := message;
    LogEntry.device_type :=
      match DeviceState.device_info (state self) with
      | Some info => Some (DeviceInfo.device_type info)
      | None => None
      end;
    LogEntry.context := Some (default [] context);
  |} in
  modify (λ self, set_logs (logs self ++ [log_entry]) self);;
  (* Keep only last 100 logs *)
  self ← get;
  if 100 <? Z.of_nat (length (logs self))
  then modify (set_logs (slice_from (-100) (logs self)))
  else mret ().

(** [o.attr] where [o] may be [None]. *)
Definition getattr {A} (attr : string) (o : option A) : M A :=
  match o with
  | Some a => mret a
  | None => raise (AttributeError
              ("'NoneType' object has no attribute '" +:+ attr +:+ "'"))
  end.

Section methods.
Context `{!Runtime}.

Definition connect_device (env : Env) (device_info : DeviceInfo.t) : M Dict :=
  self ← get;
  if DeviceState.is_connected (state self)
  then raise (Exception "Device already connected")
  else
    (* Simulate connection delay *)
    asyncio_sleep 0.5;;
    modify_state (DeviceState.set_is_connected true);;
    modify_state (DeviceState.set_device_info (Some device_info));;
    modify_state (DeviceState.set_last_activity (Some (utcnow env 0)));;
    modify_state (DeviceState.set_screen DeviceScreen.HOME);;
    modify (set_pin_attempts 0);;
    _add_log (uuid4 env 0) (utcnow env 1) LogLevel.SUCCESS
      (DeviceInfo.name device_info +:+ " connected successfully")
      (Some [("device_type",
              AStr (DeviceType.value (DeviceInfo.device_type device_info)))]);;
    self ← get;
    mret [("connected", ABool true);
          ("device", ADict (DeviceInfo.dict device_info));
          ("screen", AStr (DeviceScreen.value (DeviceState.screen (state self))))].

Definition disconnect_device (env : Env) : M Dict :=
  self ← get;
  if negb (DeviceState.is_connected (state self))
  then raise (Exception "No device connected")
  else
    let device_name :=
      match DeviceState.device_info (state self) with
      | Some info => DeviceInfo.name info
      | None => "Unknown device"
      end in
    (* Reset state *)
    modify (set_state DeviceState.default);;
    modify (set_pending_transaction None);;
    _add_log (uuid4 env 0) (utcnow env 0) LogLevel.WARNING
      (device_name +:+ " disconnected") None;;
    mret [("disconnected", ABool true)].

Definition unlock_device (env : Env) (pin : string) : M Dict :=
  self ← get;
  if negb (DeviceState.is_connected (state self))
  then raise (Exception "Device not connected")
  else if DeviceState.is_unlocked (state self)
  then mret [("unlocked", ABool true); ("already_unlocked", ABool true)]
  else
    (* Simulate PIN verification delay *)
    asyncio_sleep 0.3;;
    if String.eqb pin default_pin
    then
      modify_state (DeviceState.set_is_unlocked true);;
      modify_state (DeviceState.set_screen DeviceScreen.WALLET);;
      modify_state (DeviceState.set_last_activity (Some (utcnow env 0)));;
      modify (set_pin_attempts 0);;
      (* Set mock address and balance based on device type *)
      self ← get;
      match DeviceState.device_info (state self) with
      | Some info =>
          let device_type := DeviceInfo.device_type info in
          modify_state (DeviceState.set_address
            (default "octra1..." (mock_addresses !! DeviceType.value device_type)));;
          modify_state (DeviceState.set_balance
            (default "0.00000000" (mock_balances !! DeviceType.value device_type)))
      | None => mret ()
      end;;
      _add_log (uuid4 env 0) (utcnow env 1) LogLevel.SUCCESS
        "Device unlocked successfully" None;;
      self ← get;
      mret [("unlocked", ABool true);
            ("address", AStr (DeviceState.address (state self)));
            ("balance", AStr (DeviceState.balance (state self)));
            ("screen", AStr (DeviceScreen.value (DeviceState.screen (state self))))]
    else
      modify (λ self, set_pin_attempts (pin_attempts self + 1) self);;
      self ← get;
      let remaining_attempts := max_pin_attempts - pin_attempts self in
      _add_log (uuid4 env 0) (utcnow env 0) LogLevel.ERROR
        ("Invalid PIN. " +:+ str_of_int remaining_attempts +:+ " attempts remaining")
        (Some [("attempts_remaining", AInt remaining_attempts)]);;
      if remaining_attempts <=? 0
      then
        (* Lock device after max attempts *)
        modify_state (DeviceState.set_is_connected false);;
        _add_log (uuid4 env 1) (utcnow env 1) LogLevel.ERROR
          "Device locked due to too many invalid PIN attempts" None;;
        raise (Exception "Device locked due to too many invalid PIN attempts")
      else
        mret [("unlocked", ABool false);
              ("error", AStr "Invalid PIN");
              ("attempts_remaining", AInt remaining_attempts)].

Definition sign_transaction (env : Env) (transaction : TransactionRequest.t) : M Dict :=
  self ← get;
  if negb (DeviceState.is_connected (state self))
  then raise (Exception "Device not connected")
  else if negb (DeviceState.is_unlocked (state self))
  then raise (Exception "Device not unlocked")
  else if DeviceState.awaiting_confirmation (state self)
  then raise (Exception "Another transaction is already pending confirmation")
  else
    (* Store pending transaction *)
    modify (set_pending_transaction (Some transaction));;
    modify_state (DeviceState.set_awaiting_confirmation true);;
    modify_state (DeviceState.set_screen DeviceScreen.CONFIRM);;
    modify_state (DeviceState.set_last_activity (Some (utcnow env 0)));;
    _add_log (uuid4 env 0) (utcnow env 1) LogLevel.INFO
      ("Transaction signing requested: " +:+ TransactionRequest.amount transaction
         +:+ " OCTRA to "
         +:+ str_prefix 10 (TransactionRequest.to_address transaction) +:+ "...")
      (Some [("transaction", ADict (TransactionRequest.dict transaction))]);;
    self ← get;
    mret [("signing_requested", ABool true);
          ("transaction", ADict (TransactionRequest.dict transaction));
          ("awaiting_confirmation", ABool true);
          ("screen", AStr (DeviceScreen.value (DeviceState.screen (state self))))].

Definition confirm_transaction (env : Env) (confirmed : bool) : M Dict :=
  self ← get;
  if negb (DeviceState.awaiting_confirmation (state self))
     || negb (bool_decide (is_Some (pending_transaction self)))
  then raise (Exception "No transaction pending confirmation")
  else
    response ←
      (if confirmed
       then
         (* Simulate signing delay *)
         asyncio_sleep 1.0;;
         (* Generate mock signature *)
         self ← get;
         tx ← getattr "to_address" (pending_transaction self);
         let tx_data :=
           TransactionRequest.to_address tx +:+ TransactionRequest.amount tx
             +:+ isoformat (utcnow env 0) in
         let signature := sha256_hexdigest tx_data in
         let tx_hash := sha256_hexdigest (signature +:+ token_hex env 16) in
         info ← getattr "device_type" (DeviceState.device_info (state self));
         let result := {|
           SignatureResult.signature := signature;
           SignatureResult.transaction_hash := tx_hash;
           SignatureResult.signed_at := utcnow env 1;
           SignatureResult.device_type := DeviceInfo.device_type info;
         |} in
         modify_state (DeviceState.set_screen DeviceScreen.SIGNED);;
         _add_log (uuid4 env 0) (utcnow env 2) LogLevel.SUCCESS
           ("Transaction signed successfully: " +:+ str_prefix 16 tx_hash +:+ "...")
           None;;
         (* Reset to wallet screen after delay *)
         asyncio_sleep 2.0;;
         modify_state (DeviceState.set_screen DeviceScreen.WALLET);;
         self ← get;
         mret [("confirmed", ABool true);
               ("signature_result", ADict (SignatureResult.dict result));
               ("screen", AStr (DeviceScreen.value (DeviceState.screen (state self))))]
       else
         _add_log (uuid4 env 0) (utcnow env 0) LogLevel.WARNING
           "Transaction rejected by user" None;;
         modify_state (DeviceState.set_screen DeviceScreen.WALLET);;
         self ← get;
         mret [("confirmed", ABool false);
               ("rejected", ABool true);
               ("screen", AStr (DeviceScreen.value (DeviceState.screen (state self))))]);
    (* Clear pending transaction *)
    modify (set_pending_transaction None);;
    modify_state (DeviceState.set_awaiting_confirmation false);;
    modify_state (DeviceState.set_last_activity
                    (Some (utcnow env (if confirmed then 3 else 1)%nat)));;
    mret response.

Definition generate_address (env : Env) (derivation_path : string) : M AddressInfo.t :=
  self ← get;
  if negb (DeviceState.is_connected (state self))
     || negb (DeviceState.is_unlocked (state self))
  then raise (Exception "Device must be connected and unlocked")
  else
    (* Mock address generation *)
    info ← getattr "device_type" (DeviceState.device_info (state self));
    let seed :=
      DeviceType.value (DeviceInfo.device_type info) +:+ derivation_path
        +:+ token_hex env 8 in
    let address_hash := sha256_hexdigest seed in
    let address := "octra1" +:+ str_prefix 32 address_hash in
    let public_key := sha256_hexdigest ("pubkey" +:+ seed) in
    _add_log (uuid4 env 0) (utcnow env 0) LogLevel.INFO
      ("Generated new address: " +:+ str_prefix 16 address +:+ "...") None;;
    mret {| AddressInfo.address := address;
            AddressInfo.derivation_path := derivation_path;
            AddressInfo.public_key := public_key;
            AddressInfo.address_type := "octra" |}.

Definition get_status (self : t) : Dict :=
  [("device_state", ADict (DeviceState.dict (state self)));
   ("pending_transaction",
    of_option (λ tx, ADict (TransactionRequest.dict tx)) (pending_transaction self));
   ("pin_attempts_remaining", AInt (max_pin_attempts - pin_attempts self))].

Definition get_logs (limit : Z) (self : t) : list Dict :=
  let recent_logs :=
    if 0 <? limit then slice_from (- limit) (logs self) else logs self in
  LogEntry.dict <$> recent_logs.

Definition clear_logs (env : Env) : M () :=
  modify (set_logs []);;
  _add_log (uuid4 env 0) (utcnow env 0) LogLevel.INFO "Activity logs cleared" None.

Definition is_connected (self : t) : bool := DeviceState.is_connected (state self).
Definition is_unlocked (self : t) : bool := DeviceState.is_unlocked (state self).

Definition reset (env : Env) : M () :=
  modify (set_state DeviceState.default);;
  modify (set_pending_transaction None);;
  modify (set_pin_attempts 0);;
  _add_log (uuid4 env 0) (utcnow env 0) LogLevel.INFO "Device simulator reset" None.

End methods.

End DeviceSimulator.

(** *** Sessions: sequences of calls

A request handler makes one call at a time on the process-wide simulator
([main.py]); a session is the list of calls made since start-up, each
with the clock and random values it read. *)

Module Session.
Import DeviceSimulator.

Inductive Op : Type :=
  | Connect (device_info : DeviceInfo.t)
  | Disconnect
  | Unlock (pin : string)
  | SignTransaction (transaction : TransactionRequest.t)
  | ConfirmTransaction (confirmed : bool)
  | GenerateAddress (derivation_path : string)
  | ResetSimulator
  | ClearLogs.

Inductive Value : Type :=
  | VDict (d : Dict)
  | VAddressInfo (a : AddressInfo.t)
  | VNone.

Section run.
Context `{!Runtime}.

Definition call (env : Env) (op : Op) : M Value :=
  match op with
  | Connect device_info => d ← connect_device env device_info; mret (VDict d)
  | Disconnect => d ← disconnect_device env; mret (VDict d)
  | Unlock pin => d ← unlock_device env pin; mret (VDict d)
  | SignTransaction transaction => d ← sign_transaction env transaction; mret (VDict d)
  | ConfirmTransaction confirmed => d ← confirm_transaction env confirmed; mret (VDict d)
  | GenerateAddress derivation_path =>
      a ← generate_address env derivation_path; mret (VAddressInfo a)
  | ResetSimulator => reset env;; mret VNone
  | ClearLogs => clear_logs env;; mret VNone
  end.

(** The simulator after the calls, made in order. *)
Fixpoint run (calls : list (Env * Op)) (self : t) : t :=
  match calls with
  | [] => self
  | (env, op) :: calls' => run calls' (call env op self).2
  end.

(** What each call returned or raised, and the simulator it left. *)
Fixpoint trace (calls : list (Env * Op)) (self : t) : list (Result Value * t) :=
  match calls with
  | [] => []
  | (env, op) :: calls' =>
      let r := call env op self in r :: trace calls' r.2
  end.
End run.

Definition is_connect (op : Op) : bool :=
  match op with Connect _ => true | _ => false end.

Definition is_attribute_error {A} (r : Result A) : bool :=
  match r with Raise (AttributeError _) => true | _ => false end.
End Session.

(** ** models/fhe.py *)

Module FHEOperation.
Inductive t := ADD | MULTIPLY | COMPARE | MAX | AVERAGE | VOTE.
Definition value (x : t) : string :=
  match x with
  | ADD => "add" | MULTIPLY => "multiply" | COMPARE => "compare"
  | MAX => "max" | AVERAGE => "average" | VOTE => "vote"
  end.
End FHEOperation.

Module FHEDataType.
Inductive t := INTEGER | DECIMAL | BOOLEAN.
End FHEDataType.

Module EncryptedValue.
Record t := {
  encrypted_data : string;
  data_type : FHEDataType.t;
  can_compute : bool;
  noise_level : Z;
}.
(** [noise_level: int = Field(default=1, ge=1, le=10)] *)
Definition noise_level_ok (n : Z) : bool := (1 <=? n) && (n <=? 10).
(** What pydantic guarantees of a value it constructed or parsed. *)
Definition valid (x : t) : Prop := 1 ≤ noise_level x ≤ 10.
(** The constructor: pydantic validates the fields and raises on a
    [noise_level] outside the declared bounds. *)
Definition new (encrypted_data : string) (data_type : FHEDataType.t)
    (can_compute : bool) (noise_level : Z) : Result t :=
  if noise_level_ok noise_level
  then Ok {| encrypted_data := encrypted_data; data_type := data_type;
             can_compute := can_compute; noise_level := noise_level |}
  else Raise (ValidationError "1 validation error for EncryptedValue").
End EncryptedValue.

Module FHEComputeRequest.
Record t := {
  operation : FHEOperation.t;
  operands : list EncryptedValue.t;
  parameters : option Dict;
}.
End FHEComputeRequest.

Module FHEComputeResult.
Record t := {
  operation : FHEOperation.t;
  result : EncryptedValue.t;
  computation_time : float;
  gas_used : Z;
  success : bool;
  error_message : option string;
}.
End FHEComputeResult.

(** ** services/fhe_service.py *)

Module FHEService.

Definition operation_costs : gmap string Z :=
  <["add" := 100]> (<["multiply" := 500]> (<["compare" := 300]>
  (<["max" := 400]> (<["average" := 600]> (<["vote" := 200]> ∅))))).

Definition base_delay : gmap string float :=
  <["add" := 0.1%float]> (<["multiply" := 0.5%float]> (<["compare" := 0.3%float]>
  (<["max" := 0.4%float]> (<["average" := 0.6%float]> (<["vote" := 0.2%float]> ∅))))).

(** [time.sleep(seconds)]: the service has no state to change meanwhile. *)
Definition time_sleep {A} (seconds : float) (k : A) : A := k.

(** [str(e)] *)
Definition str_of_exn (e : PyExn) : string :=
  match e with
  | Exception msg | AttributeError msg | ValidationError msg => msg
  end.

Section methods.
Context `{!Runtime}.

Definition _mock_compute (operation : FHEOperation.t)
    (operands : list EncryptedValue.t) : Result EncryptedValue.t :=
  (* Combine all operand data for mock result *)
  let combined_data :=
    String.concat "" (EncryptedValue.encrypted_data <$> operands) in
  let operation_hash :=
    sha256_hexdigest (FHEOperation.value operation +:+ "_" +:+ combined_data) in
  (* Determine result data type *)
  let result_type :=
    match operands with
    | op :: _ => EncryptedValue.data_type op
    | [] => FHEDataType.INTEGER
    end in
  (* Increase noise level after computation *)
  let max_noise :=
    match EncryptedValue.noise_level <$> operands with
    | n :: ns => foldl Z.max n ns
    | [] => 1
    end in
  let new_noise := Z.min (max_noise + 1) 10 in
  EncryptedValue.new operation_hash result_type (new_noise <? 8) new_noise.

Definition perform_computation (env : Env) (request : FHEComputeRequest.t)
    : Result FHEComputeResult.t :=
  let start_time := time_time env 0 in
  let operation := FHEComputeRequest.operation request in
  let attempt : Result FHEComputeResult.t :=
    (* Simulate computation delay based on operation complexity *)
    time_sleep (default 0.1%float (base_delay !! FHEOperation.value operation))
    (* Mock computation result *)
    match _mock_compute operation (FHEComputeRequest.operands request) with
    | Ok result_encrypted =>
        let computation_time := PrimFloat.sub (time_time env 1) start_time in
        let gas_used :=
          default 100 (operation_costs !! FHEOperation.value operation) in
        Ok {| FHEComputeResult.operation := operation;
              FHEComputeResult.result := result_encrypted;
              FHEComputeResult.computation_time := computation_time;
              FHEComputeResult.gas_used := gas_used;
              FHEComputeResult.success := true;
              FHEComputeResult.error_message := None |}
    | Raise e => Raise e
    end in
  match attempt with
  | Ok r => Ok r
  | Raise e =>
      (* except Exception as e *)
      match EncryptedValue.new "" FHEDataType.INTEGER true 1 with
      | Ok empty =>
          Ok {| FHEComputeResult.operation := operation;
                FHEComputeResult.result := empty;
                FHEComputeResult.computation_time :=
                  PrimFloat.sub (time_time env 1) start_time;
                FHEComputeResult.gas_used := 0;
                FHEComputeResult.success := false;
                FHEComputeResult.error_message := Some (str_of_exn e) |}
      | Raise e' => Raise e'
      end
  end.

(** Not a method of the service: what a caller does who computes again on
    the service's own output, each round on the previous result together
    with that round's other operands. *)
Fixpoint compute_chain (rounds : list (FHEOperation.t * list EncryptedValue.t))
    (previous : EncryptedValue.t) : Result (list EncryptedValue.t) :=
  match rounds with
  | [] => Ok []
  | (operation, others) :: rounds' =>
      match _mock_compute operation (previous :: others) with
      | Ok r =>
          match compute_chain rounds' r with
          | Ok rs => Ok (r :: rs)
          | Raise e => Raise e
          end
      | Raise e => Raise e
      end
  end.
End methods.

End FHEService.

(** ** services/websocket_manager.py *)

Module WebSocketManager.

(** A connection is known by its identity ([id(websocket)]). *)
Definition WebSocket := positive.

Record ConnectionInfo := {
  connected_at : datetime;
  client_id : WebSocket;
}.

Record t := {
  active_connections : list WebSocket;
  connection_info : gmap WebSocket ConnectionInfo;
}.

Definition init : t := {| active_connections := []; connection_info := ∅ |}.

(** [l.remove(x)]: drops the first [x] (the callers check [x in l]). *)
Fixpoint list_remove (x : WebSocket) (l : list WebSocket) : list WebSocket :=
  match l with
  | [] => []
  | y :: l' => if bool_decide (x = y) then l' else y :: list_remove x l'
  end.

Definition disconnect (websocket : WebSocket) (self : t) : t :=
  if bool_decide (websocket ∈ active_connections self)
  then {| active_connections := list_remove websocket (active_connections self);
          connection_info := delete websocket (connection_info self) |}
  else self.

Section methods.
Context `{!Runtime}.
(** The transport during one call: whether [send_text] to a connection
    goes through ([true]) or raises. *)
Variable send_text : WebSocket → string → bool.

(** The first loop of [broadcast]: what was sent, and who failed. *)
Fixpoint broadcast_send (message_str : string) (connections : list WebSocket)
    (sent : list (WebSocket * string)) (disconnected : list WebSocket)
    : list (WebSocket * string) * list WebSocket :=
  match connections with
  | [] => (sent, disconnected)
  | connection :: connections' =>
      if send_text connection message_str
      then broadcast_send message_str connections'
             (sent ++ [(connection, message_str)]) disconnected
      else broadcast_send message_str connections'
             sent (disconnected ++ [connection])
  end.

(** [broadcast] returns nothing; the model returns the messages that
    went out, in order, next to the manager it leaves. *)
Definition broadcast (message : Dict) (self : t) : list (WebSocket * string) * t :=
  match active_connections self with
  | [] => ([], self)
  | _ =>
      let message_str := json_dumps message in
      let '(sent, disconnected) :=
        broadcast_send message_str (active_connections self) [] [] in
      (* Clean up disconnected connections *)
      (sent, foldl (λ self connection, disconnect connection self) self disconnected)
  end.

Definition send_personal_message (message : Dict) (websocket : WebSocket) (self : t)
    : list (WebSocket * string) * t :=
  let message_str := json_dumps message in
  if send_text websocket message_str
  then ([(websocket, message_str)], self)
  else ([], disconnect websocket self).

Definition connect (env : Env) (websocket : WebSocket) (self : t)
    : list (WebSocket * string) * t :=
  let self := {|
    active_connections := active_connections self ++ [websocket];
    connection_info :=
      <[websocket := {| connected_at := utcnow env 0; client_id := websocket |}]>
        (connection_info self) |} in
  send_personal_message
    [("type", AStr "connection_established");
     ("message", AStr "Connected to Octra Hardware Wallet Simulator");
     ("client_id", AInt (Z.pos websocket));
     ("timestamp", AStr (isoformat (utcnow env 1)))]
    websocket self.

Definition get_connection_count (self : t) : Z :=
  Z.of_nat (length (active_connections self)).
End methods.

End WebSocketManager.

(** ** Specification vocabulary for the session and its log *)

Module SessionSpec.
Import DeviceSimulator Session.

(** The entry [_add_log] builds from its arguments on [self]. *)
Definition make_entry (id : string) (timestamp : datetime) (level : LogLevel.t)
    (message : string) (context : option Dict) (self : t) : LogEntry.t := {|
  LogEntry.id := id;
  LogEntry.timestamp := timestamp;
  LogEntry.level := level;
  LogEntry.message := message;
  LogEntry.device_type :=
    DeviceInfo.device_type <$> DeviceState.device_info (state self);
  LogEntry.context := Some (default [] context);
|}.

(** The last [n] elements of a list, in order. *)
Definition last_n {A} (n : nat) (l : list A) : list A := drop (length l - n) l.

(** The arguments of one [_add_log] call. *)
Record LogCall := {
  call_id : string;
  call_timestamp : datetime;
  call_level : LogLevel.t;
  call_message : string;
  call_context : option Dict;
}.

Fixpoint add_logs (calls : list LogCall) (self : t) : t :=
  match calls with
  | [] => self
  | c :: calls' =>
      add_logs calls'
        (_add_log (call_id c) (call_timestamp c) (call_level c) (call_message c)
           (call_context c) self).2
  end.

Definition entry_of (self : t) (c : LogCall) : LogEntry.t :=
  make_entry (call_id c) (call_timestamp c) (call_level c) (call_message c)
    (call_context c) self.

(** The two session invariants of the specification. *)
Definition unlocked_implies_connected (self : t) : Prop :=
  is_unlocked self = true → is_connected self = true.

Definition awaiting_implies_pending (self : t) : Prop :=
  DeviceState.awaiting_confirmation (state self) = true →
  pending_transaction self ≠ None.

Definition connected_implies_device_info (self : t) : Prop :=
  is_connected self = true → DeviceState.device_info (state self) ≠ None.

(** The inductive invariant the three above follow from. *)
Record session_inv (self : t) : Prop := {
  inv_unlocked : is_unlocked self = true → is_connected self = true;
  inv_awaiting :
    DeviceState.awaiting_confirmation (state self) = true → is_unlocked self = true;
  inv_pending :
    DeviceState.awaiting_confirmation (state self) = true →
    is_Some (pending_transaction self);
  inv_info :
    is_connected self = true → is_Some (DeviceState.device_info (state self));
}.

Definition wrong_pin_response (attempts_remaining : Z) : Dict :=
  [("unlocked", ABool false);
   ("error", AStr "Invalid PIN");
   ("attempts_remaining", AInt attempts_remaining)].

Definition device_locked : PyExn :=
  Exception "Device locked due to too many invalid PIN attempts".

Definition not_connected : PyExn := Exception "Device not connected".

End SessionSpec.

(** ** A concrete runtime for the examples

Digests are kept symbolic, timestamps count the reads of the clock. *)

#[local] Instance sample_runtime : Runtime := {|
  sha256_hexdigest s := "sha256(" +:+ s +:+ ")";
  isoformat t := "T" +:+ str_of_int t;
  json_dumps d := "{" +:+ String.concat "," (fst <$> d) +:+ "}";
|}.

Definition sample_env : Env := {|
  uuid4 n := "uuid-" +:+ str_of_int (Z.of_nat n);
  utcnow n := Z.of_nat n;
  token_hex n := "tok" +:+ str_of_int (Z.of_nat n);
  time_time n := 0%float;
|}.

Definition ledger_nano_s : DeviceInfo.t := {|
  DeviceInfo.device_type := DeviceType.LEDGER;
  DeviceInfo.name := "Ledger Nano S";
  DeviceInfo.firmware_version := Some "1.0.0";
  DeviceInfo.serial_number := None;
|}.

Definition sample_transaction : TransactionRequest.t := {|
  TransactionRequest.to_address := "octra1abc...";
  TransactionRequest.amount := "10.5";
  TransactionRequest.fee := Some "0.001";
  TransactionRequest.memo := None;
  TransactionRequest.gas_limit := Some 21000;
|}.

(** A session that reaches a pending confirmation. *)
Definition signing_session : list (Env * Session.Op) :=
  [(sample_env, Session.Connect ledger_nano_s);
   (sample_env, Session.Unlock "1234");
   (sample_env, Session.SignTransaction sample_transaction)].

(** A session with one wrong PIN since it connected. *)
Definition one_wrong_pin_session : list (Env * Session.Op) :=
  [(sample_env, Session.Connect ledger_nano_s);
   (sample_env, Session.Unlock "0000")].

(** An unlocked session. *)
Definition unlocked_session : list (Env * Session.Op) :=
  [(sample_env, Session.Connect ledger_nano_s);
   (sample_env, Session.Unlock "1234")].

Definition sample_log_call (n : nat) : SessionSpec.LogCall := {|
  SessionSpec.call_id := "uuid-" +:+ str_of_int (Z.of_nat n);
  SessionSpec.call_timestamp := Z.of_nat n;
  SessionSpec.call_level := LogLevel.INFO;
  SessionSpec.call_message := "entry " +:+ str_of_int (Z.of_nat n);
  SessionSpec.call_context := None;
|}.

(** [d[k]] of a returned dict; [None] when the call raised. *)
Definition result_get (k : string) (r : Result Dict) : option Any :=
  match r with
  | Ok d => dict_get k d
  | Raise _ => None
  end.

Definition sample_operands : list EncryptedValue.t :=
  [{| EncryptedValue.encrypted_data := "aa"; EncryptedValue.data_type := FHEDataType.DECIMAL;
      EncryptedValue.can_compute := true; EncryptedValue.noise_level := 2 |};
   {| EncryptedValue.encrypted_data := "bb"; EncryptedValue.data_type := FHEDataType.INTEGER;
      EncryptedValue.can_compute := true; EncryptedValue.noise_level := 5 |}].

Definition empty_request : FHEComputeRequest.t := {|
  FHEComputeRequest.operation := FHEOperation.ADD;
  FHEComputeRequest.operands := [];
  FHEComputeRequest.parameters := None;
|}.

(** Three subscribers, the second with a dead connection. *)
Definition three_subscribers : WebSocketManager.t :=
  (WebSocketManager.connect (λ _ _, true) sample_env 3%positive
     (WebSocketManager.connect (λ _ _, true) sample_env 2%positive
        (WebSocketManager.connect (λ _ _, true) sample_env 1%positive
           WebSocketManager.init).2).2).2.

Definition second_is_dead (websocket : WebSocketManager.WebSocket) (message_str : string)
    : bool :=
  negb (bool_decide (websocket = 2%positive)).

(** ** Specification vocabulary for the wallet the session shows *)

Module WalletSpec.
Import DeviceSimulator Session SessionSpec.

(** The screen of the transition table: home while locked, the confirmation
    screen while a transaction is pending, the wallet otherwise. *)
Definition screen_of_flags (self : t) : DeviceScreen.t :=
  if negb (is_unlocked self) then DeviceScreen.HOME
  else if DeviceState.awaiting_confirmation (state self) then DeviceScreen.CONFIRM
  else DeviceScreen.WALLET.

(** The literal entries of the two mock tables. *)
Definition address_of (device_type : DeviceType.t) : string :=
  match device_type with
  | DeviceType.LEDGER => "octra1qpzry9x8gf2tvdw0s3jn54khce6mua7l5ta2m8c"
  | DeviceType.TREZOR => "octra1abc123def456ghi789jkl012mno345pqr678stu"
  | DeviceType.OCTRA => "octra1xyz789abc123def456ghi789jkl012mno345pqr"
  end.

Definition balance_of (device_type : DeviceType.t) : string :=
  match device_type with
  | DeviceType.LEDGER => "125.80000000"
  | DeviceType.TREZOR => "89.45123456"
  | DeviceType.OCTRA => "203.12345678"
  end.

(** What holds of the simulator between calls, beyond [session_inv]. *)
Record wallet_inv (self : t) : Prop := {
  winv_session : session_inv self;
  winv_screen : DeviceState.screen (state self) = screen_of_flags self;
  winv_locked :
    is_unlocked self = false →
    DeviceState.address (state self) = DeviceState.address DeviceState.default ∧
    DeviceState.balance (state self) = DeviceState.balance DeviceState.default;
  winv_unlocked :
    is_unlocked self = true →
    ∃ info,
      DeviceState.device_info (state self) = Some info ∧
      DeviceState.address (state self) = address_of (DeviceInfo.device_type info) ∧
      DeviceState.balance (state self) = balance_of (DeviceInfo.device_type info);
  winv_pending :
    DeviceState.awaiting_confirmation (state self) = false →
    pending_transaction self = None;
  winv_attempts : 0 ≤ pin_attempts self ≤ max_pin_attempts;
  winv_attempts_connected :
    is_connected self = true → pin_attempts self < max_pin_attempts;
  winv_attempts_unlocked : is_unlocked self = true → pin_attempts self = 0;
  winv_activity :
    is_connected self = true → is_Some (DeviceState.last_activity (state self));
}.

(** A session ready to sign: connected, unlocked, nothing pending. *)
Definition ready (self : t) : Prop :=
  is_connected self = true ∧ is_unlocked self = true ∧
  DeviceState.awaiting_confirmation (state self) = false.

End WalletSpec.

(** ** services/fhe_service.py, continued *)

Module FHEEncrypt.

(** [encrypt_value(plaintext_value, data_type)]. What the call reads from
    outside are arguments: [plaintext_str] is [str(plaintext_value)],
    [now_str] is [time.time()] as the f-string prints it, and [randint] is
    what [random.randint(1, 3)] returned. *)
Definition encrypt_value `{!Runtime} (plaintext_str now_str : string) (randint : Z)
    (data_type : FHEDataType.t) : Result EncryptedValue.t :=
  (* Mock encryption - in reality this would use actual FHE *)
  let mock_encrypted :=
    sha256_hexdigest ("FHE_" +:+ plaintext_str +:+ "_" +:+ now_str) in
  EncryptedValue.new mock_encrypted data_type true randint.

(** The literal entries of [operation_costs]. *)
Definition gas_of (operation : FHEOperation.t) : Z :=
  match operation with
  | FHEOperation.ADD => 100
  | FHEOperation.MULTIPLY => 500
  | FHEOperation.COMPARE => 300
  | FHEOperation.MAX => 400
  | FHEOperation.AVERAGE => 600
  | FHEOperation.VOTE => 200
  end.

(** [EncryptedValue(encrypted_data="", data_type=FHEDataType.INTEGER)] *)
Definition empty_value : EncryptedValue.t := {|
  EncryptedValue.encrypted_data := "";
  EncryptedValue.data_type := FHEDataType.INTEGER;
  EncryptedValue.can_compute := true;
  EncryptedValue.noise_level := 1;
|}.

End FHEEncrypt.

(** ** services/websocket_manager.py, continued *)

Module BroadcastHub.
Import WebSocketManager.

Section methods.
Context `{!Runtime}.
Variable send_text : WebSocket → string → bool.

Definition broadcast_device_status (env : Env) (status : Dict) (self : t)
    : list (WebSocket * string) * t :=
  broadcast send_text
    [("type", AStr "device_status_update");
     ("status", ADict status);
     ("timestamp", AStr (isoformat (utcnow env 0)))]
    self.

Definition broadcast_log_entry (env : Env) (log_entry : Dict) (self : t)
    : list (WebSocket * string) * t :=
  broadcast send_text
    [("type", AStr "new_log_entry");
     ("log", ADict log_entry);
     ("timestamp", AStr (isoformat (utcnow env 0)))]
    self.
End methods.

(** The calls made on the manager, each with the transport of its time. *)
Inductive Op : Type :=
| Connect (env : Env) (websocket : WebSocket)
| Disconnect (websocket : WebSocket)
| SendPersonalMessage (message : Dict) (websocket : WebSocket)
| Broadcast (message : Dict)
| BroadcastDeviceStatus (env : Env) (status : Dict)
| BroadcastLogEntry (env : Env) (log_entry : Dict).

Definition call `{!Runtime} (send_text : WebSocket → string → bool) (op : Op) (self : t)
    : list (WebSocket * string) * t :=
  match op with
  | Connect env websocket => connect send_text env websocket self
  | Disconnect websocket => ([], disconnect websocket self)
  | SendPersonalMessage message websocket =>
      send_personal_message send_text message websocket self
  | Broadcast message => broadcast send_text message self
  | BroadcastDeviceStatus env status => broadcast_device_status send_text env status self
  | BroadcastLogEntry env log_entry => broadcast_log_entry send_text env log_entry self
  end.

Fixpoint run `{!Runtime} (calls : list ((WebSocket → string → bool) * Op)) (self : t) : t :=
  match calls with
  | [] => self
  | (send_text, op) :: calls' => run calls' (call send_text op self).2
  end.

(** Every [connect] is of a connection that is not subscribed at the time:
    the endpoint connects each new socket once. *)
Fixpoint connects_fresh `{!Runtime} (calls : list ((WebSocket → string → bool) * Op))
    (self : t) : Prop :=
  match calls with
  | [] => True
  | (send_text, op) :: calls' =>
      match op with
      | Connect _ websocket => websocket ∉ active_connections self
      | _ => True
      end ∧ connects_fresh calls' (call send_text op self).2
  end.

(** The list and the table describe the same subscribers, each once. *)
Definition consistent (self : t) : Prop :=
  NoDup (active_connections self) ∧
  ∀ websocket,
    websocket ∈ active_connections self ↔ is_Some (connection_info self !! websocket).

End BroadcastHub.

(** ** utils/crypto_utils.py: the XOR mock of [OctraCrypto]

    Of the class, the two methods on hex strings need no cryptography
    library. A Python [str] is its UTF-8 bytes, a [bytes] object a list of
    bytes. *)

Module OctraCrypto.
Import Stdlib.Strings.Ascii.

Inductive Exn : Type :=
| ValueError            (* bytes.fromhex on a string that is not hex *)
| ZeroDivisionError.    (* i % 0 *)

Inductive Outcome (A : Type) : Type :=
| Returns (a : A)
| Raises (e : Exn).
Arguments Returns {A} a.
Arguments Raises {A} e.

Abbreviation bytes := (list Byte.byte).

(** [a ^ b] on two bytes. *)
Definition byte_xor (a b : Byte.byte) : Byte.byte :=
  let '(a0, (a1, (a2, (a3, (a4, (a5, (a6, a7))))))) := Byte.to_bits a in
  let '(b0, (b1, (b2, (b3, (b4, (b5, (b6, b7))))))) := Byte.to_bits b in
  Byte.of_bits (xorb a0 b0, (xorb a1 b1, (xorb a2 b2, (xorb a3 b3,
               (xorb a4 b4, (xorb a5 b5, (xorb a6 b6, xorb a7 b7))))))).

Definition hex_digit (n : N) : Ascii.ascii :=
  match n with
  | 0 => "0" | 1 => "1" | 2 => "2" | 3 => "3" | 4 => "4" | 5 => "5" | 6 => "6"
  | 7 => "7" | 8 => "8" | 9 => "9" | 10 => "a" | 11 => "b" | 12 => "c"
  | 13 => "d" | 14 => "e" | _ => "f"
  end%N%char.

(** The value of a hex digit of either case, as [bytes.fromhex] reads it. *)
Definition digit_value (c : Ascii.ascii) : option N :=
  let n := Ascii.N_of_ascii c in
  if (48 <=? n)%N && (n <=? 57)%N then Some (n - 48)%N
  else if (97 <=? n)%N && (n <=? 102)%N then Some (n - 87)%N
  else if (65 <=? n)%N && (n <=? 70)%N then Some (n - 55)%N
  else None.

(** ASCII white space, which [bytes.fromhex] skips between bytes. *)
Definition is_space (c : Ascii.ascii) : bool :=
  let n := Ascii.N_of_ascii c in
  ((9 <=? n)%N && (n <=? 13)%N) || (n =? 32)%N.

(** [b.hex()] *)
Fixpoint hex (b : bytes) : string :=
  match b with
  | [] => ""
  | x :: b' =>
      String (hex_digit (Byte.to_N x / 16))
        (String (hex_digit (Byte.to_N x mod 16)) (hex b'))
  end.

(** [bytes.fromhex(s)] *)
Fixpoint fromhex (s : string) : Outcome bytes :=
  match s with
  | EmptyString => Returns []
  | String c s' =>
      if is_space c then fromhex s'
      else
        match digit_value c, s' with
        | Some top, String d s'' =>
            match digit_value d with
            | Some bot =>
                match fromhex s'' with
                | Returns b => Returns (default Byte.x00 (Byte.of_N (top * 16 + bot)) :: b)
                | Raises e => Raises e
                end
            | None => Raises ValueError
            end
        | _, _ => Raises ValueError
        end
  end.

(** The loop of [create_fhe_encrypted_data], from index [i] on. *)
Fixpoint xor_with_key (key_bytes : bytes) (i : nat) (data_bytes : bytes) : Outcome bytes :=
  match data_bytes with
  | [] => Returns []
  | byte :: data_bytes' =>
      match length key_bytes with
      | O => Raises ZeroDivisionError
      | S _ =>
          match xor_with_key key_bytes (S i) data_bytes' with
          | Returns encrypted =>
              Returns (byte_xor byte
                         (default Byte.x00 (key_bytes !! (i mod length key_bytes)%nat))
                       :: encrypted)
          | Raises e => Raises e
          end
      end
  end.

Definition create_fhe_encrypted_data (env : Env) (data : string) (key : option string)
    : Outcome Dict :=
  let key := match key with Some key => key | None => token_hex env 32 end in
  (* Simple XOR "encryption" for demo purposes *)
  let data_bytes := String.list_byte_of_string data in
  match fromhex key with
  | Raises e => Raises e
  | Returns key_bytes =>
      match xor_with_key key_bytes 0 data_bytes with
      | Raises e => Raises e
      | Returns encrypted =>
          Returns [("encrypted_data", AStr (hex encrypted));
                   ("encryption_key", AStr key);
                   ("algorithm", AStr "mock_fhe");
                   ("can_compute", ABool true)]
      end
  end.

(** The loop of [fhe_add_encrypted]: a missing byte counts as 0. *)
Definition xor_padded (bytes_a bytes_b : bytes) : bytes :=
  let max_len := Nat.max (length bytes_a) (length bytes_b) in
  (λ i, byte_xor (default Byte.x00 (bytes_a !! i)) (default Byte.x00 (bytes_b !! i)))
    <$> seq 0 max_len.

Definition fhe_add_encrypted (enc_a enc_b : string) : Outcome string :=
  match fromhex enc_a with
  | Raises e => Raises e
  | Returns bytes_a =>
      match fromhex enc_b with
      | Raises e => Raises e
      | Returns bytes_b => Returns (hex (xor_padded bytes_a bytes_b))
      end
  end.

(** The ["encrypted_data"] of a returned dict. *)
Definition encrypted_data (r : Outcome Dict) : option string :=
  match r with
  | Returns d =>
      match dict_get "encrypted_data" d with
      | Some (AStr s) => Some s
      | _ => None
      end
  | Raises _ => None
  end.

End OctraCrypto.

(** ** main.py: the request handlers on the simulator and the hub

    A handler calls the simulator, broadcasts the event of what happened
    and answers; whatever the simulator raises comes back as an
    [HTTPException] of status 400. *)

Module Main.

(** [ApiResponse] and its subclasses, which add nothing
    ([models/responses.py]). *)
Record ApiResponse := {
  success : bool;
  message : string;
  data : option Dict;
  timestamp : datetime;
}.

Inductive HTTPResult : Type :=
| Returned (response : ApiResponse)
| ReturnedDict (d : Dict)
| HTTPException (status_code : Z) (detail : string).

(** The two module-level objects of [main.py]. *)
Record App := {
  device_simulator : DeviceSimulator.t;
  websocket_manager : WebSocketManager.t;
}.

(** Truth value of a Python object ([if not pin], [if confirmed]). *)
Definition truthy (v : Any) : bool :=
  match v with
  | ANone => false
  | ABool b => b
  | AInt z => negb (z =? 0)
  | AStr s => negb (String.eqb s "")
  | ADatetime _ => true
  | ADict d => match d with [] => false | _ => true end
  end.

(** What [unlock_device] makes of a PIN that is no [str]: it compares it
    with [default_pin] and does nothing else with it, and an object that is
    no [str] equals no [str]; the empty string stands for any such PIN. *)
Definition pin_of (v : Any) : string :=
  match v with AStr s => s | _ => "" end.

Section handlers.
Context `{!Runtime}.
(** [ApiResponse.timestamp] defaults to [datetime.utcnow()] as evaluated
    once, when the class is defined. *)
Variable class_timestamp : datetime.
(** [str(e)] of an [HTTPException] raised inside the handler's own [try]. *)
Variable str_HTTPException : Z → string → string.
Variable send_text : WebSocketManager.WebSocket → string → bool.

Definition api_response (data : Dict) (message : string) : ApiResponse :=
  {| success := true; message := message; data := Some data;
     timestamp := class_timestamp |}.

Definition get_device_status (app : App)
    : HTTPResult * list (WebSocketManager.WebSocket * string) * App :=
  (Returned (api_response (DeviceSimulator.get_status (device_simulator app))
               "Device status retrieved successfully"),
   [], app).

Definition connect_device (env : Env) (now : datetime) (device_info : DeviceInfo.t)
    (app : App) : HTTPResult * list (WebSocketManager.WebSocket * string) * App :=
  match DeviceSimulator.connect_device env device_info (device_simulator app) with
  | (Ok result, simulator) =>
      (* Broadcast connection status via WebSocket *)
      let '(sent, manager) :=
        WebSocketManager.broadcast send_text
          [("type", AStr "device_connected");
           ("device", ADict (DeviceInfo.dict device_info));
           ("timestamp", AStr (isoformat now))]
          (websocket_manager app) in
      (Returned (api_response result
                   (DeviceInfo.name device_info +:+ " connected successfully")),
       sent,
       {| device_simulator := simulator; websocket_manager := manager |})
  | (Raise e, simulator) =>
      (HTTPException 400 ("Connection failed: " +:+ FHEService.str_of_exn e),
       [],
       {| device_simulator := simulator; websocket_manager := websocket_manager app |})
  end.

Definition disconnect_device (env : Env) (now : datetime) (app : App)
    : HTTPResult * list (WebSocketManager.WebSocket * string) * App :=
  match DeviceSimulator.disconnect_device env (device_simulator app) with
  | (Ok result, simulator) =>
      (* Broadcast disconnection via WebSocket *)
      let '(sent, manager) :=
        WebSocketManager.broadcast send_text
          [("type", AStr "device_disconnected");
           ("timestamp", AStr (isoformat now))]
          (websocket_manager app) in
      (Returned (api_response result "Device disconnected successfully"),
       sent,
       {| device_simulator := simulator; websocket_manager := manager |})
  | (Raise e, simulator) =>
      (HTTPException 400 ("Disconnection failed: " +:+ FHEService.str_of_exn e),
       [],
       {| device_simulator := simulator; websocket_manager := websocket_manager app |})
  end.

Definition unlock_device (env : Env) (now : datetime) (pin_data : Dict) (app : App)
    : HTTPResult * list (WebSocketManager.WebSocket * string) * App :=
  let pin := default ANone (dict_get "pin" pin_data) in
  if negb (truthy pin)
  then
    (* the HTTPException raised in the try is caught by its own except *)
    (HTTPException 400
       ("Unlock failed: " +:+ str_HTTPException 400 "PIN is required"),
     [], app)
  else
    match DeviceSimulator.unlock_device env (pin_of pin) (device_simulator app) with
    | (Ok result, simulator) =>
        (* Broadcast unlock status via WebSocket *)
        let '(sent, manager) :=
          WebSocketManager.broadcast send_text
            [("type",
              AStr (if truthy (default ANone (dict_get "unlocked" result))
                    then "device_unlocked" else "unlock_failed"));
             ("timestamp", AStr (isoformat now))]
            (websocket_manager app) in
        (Returned (api_response result "Device unlock attempt completed"),
         sent,
         {| device_simulator := simulator; websocket_manager := manager |})
    | (Raise e, simulator) =>
        (HTTPException 400 ("Unlock failed: " +:+ FHEService.str_of_exn e),
         [],
         {| device_simulator := simulator; websocket_manager := websocket_manager app |})
    end.

Definition sign_transaction (env : Env) (now : datetime)
    (transaction : TransactionRequest.t) (app : App)
    : HTTPResult * list (WebSocketManager.WebSocket * string) * App :=
  if negb (DeviceSimulator.is_connected (device_simulator app))
  then
    (HTTPException 400
       ("Transaction signing failed: " +:+ str_HTTPException 400 "Device not connected"),
     [], app)
  else if negb (DeviceSimulator.is_unlocked (device_simulator app))
  then
    (HTTPException 400
       ("Transaction signing failed: " +:+ str_HTTPException 400 "Device not unlocked"),
     [], app)
  else
    match DeviceSimulator.sign_transaction env transaction (device_simulator app) with
    | (Ok result, simulator) =>
        (* Broadcast signing request via WebSocket *)
        let '(sent, manager) :=
          WebSocketManager.broadcast send_text
            [("type", AStr "transaction_sign_request");
             ("transaction", ADict (TransactionRequest.dict transaction));
             ("timestamp", AStr (isoformat now))]
            (websocket_manager app) in
        (* Return the result directly, not wrapped in ApiResponse *)
        (ReturnedDict [("success", ABool true);
                       ("data", ADict result);
                       ("message", AStr "Transaction signing initiated")],
         sent,
         {| device_simulator := simulator; websocket_manager := manager |})
    | (Raise e, simulator) =>
        (HTTPException 400 ("Transaction signing failed: " +:+ FHEService.str_of_exn e),
         [],
         {| device_simulator := simulator; websocket_manager := websocket_manager app |})
    end.

Definition confirm_transaction (env : Env) (now : datetime) (confirmation_data : Dict)
    (app : App) : HTTPResult * list (WebSocketManager.WebSocket * string) * App :=
  let confirmed := truthy (default (ABool false) (dict_get "confirmed" confirmation_data)) in
  match DeviceSimulator.confirm_transaction env confirmed (device_simulator app) with
  | (Ok result, simulator) =>
      (* Broadcast confirmation via WebSocket *)
      let '(sent, manager) :=
        WebSocketManager.broadcast send_text
          [("type",
            AStr (if confirmed then "transaction_confirmed" else "transaction_rejected"));
           ("result", ADict result);
           ("timestamp", AStr (isoformat now))]
          (websocket_manager app) in
      (Returned (api_response result
                   ("Transaction " +:+ (if confirmed then "confirmed" else "rejected"))),
       sent,
       {| device_simulator := simulator; websocket_manager := manager |})
  | (Raise e, simulator) =>
      (HTTPException 400
         ("Transaction confirmation failed: " +:+ FHEService.str_of_exn e),
       [],
       {| device_simulator := simulator; websocket_manager := websocket_manager app |})
  end.

Definition clear_device_logs (env : Env) (app : App)
    : HTTPResult * list (WebSocketManager.WebSocket * string) * App :=
  match DeviceSimulator.clear_logs env (device_simulator app) with
  | (Ok _, simulator) =>
      (Returned (api_response [("cleared", ABool true)] "Logs cleared successfully"),
       [],
       {| device_simulator := simulator; websocket_manager := websocket_manager app |})
  | (Raise e, simulator) =>
      (HTTPException 500 ("Failed to clear logs: " +:+ FHEService.str_of_exn e),
       [],
       {| device_simulator := simulator; websocket_manager := websocket_manager app |})
  end.

(** The requests that change the device, and the event each one
    broadcasts when it is accepted. *)
Inductive Request : Type :=
| PostConnect (device_info : DeviceInfo.t)
| PostDisconnect
| PutUnlock (pin_data : Dict)
| PostSign (transaction : TransactionRequest.t)
| PostConfirm (confirmation_data : Dict).

Definition handle (env : Env) (now : datetime) (request : Request) (app : App)
    : HTTPResult * list (WebSocketManager.WebSocket * string) * App :=
  match request with
  | PostConnect device_info => connect_device env now device_info app
  | PostDisconnect => disconnect_device env now app
  | PutUnlock pin_data => unlock_device env now pin_data app
  | PostSign transaction => sign_transaction env now transaction app
  | PostConfirm confirmation_data => confirm_transaction env now confirmation_data app
  end.

End handlers.

Definition is_rejected (r : HTTPResult) : bool :=
  match r with HTTPException _ _ => true | _ => false end.

(** The event types a request can broadcast. *)
Definition event_types (request : Request) : list string :=
  match request with
  | PostConnect _ => ["device_connected"]
  | PostDisconnect => ["device_disconnected"]
  | PutUnlock _ => ["device_unlocked"; "unlock_failed"]
  | PostSign _ => ["transaction_sign_request"]
  | PostConfirm _ => ["transaction_confirmed"; "transaction_rejected"]
  end.

End Main.

(** Two connections, a broadcast that the second one fails, a departure. *)
Definition hub_session
    : list ((WebSocketManager.WebSocket → string → bool) * BroadcastHub.Op) :=
  [((λ _ _, true), BroadcastHub.Connect sample_env 1%positive);
   ((λ _ _, true), BroadcastHub.Connect sample_env 2%positive);
   (second_is_dead, BroadcastHub.Broadcast [("type", AStr "device_connected")]);
   ((λ _ _, true), BroadcastHub.Disconnect 1%positive)].

(** [str(e)] of Starlette's [HTTPException]: the status code, then the
    detail. *)
Definition sample_str_HTTPException (status_code : Z) (detail : string) : string :=
  str_of_int status_code +:+ ": " +:+ detail.

(** The handlers with a class timestamp, a transport on which the second
    subscriber is dead, and a clock. *)
Definition sample_handle (request : Main.Request) (app : Main.App)
    : Main.HTTPResult * list (WebSocketManager.WebSocket * string) * Main.App :=
  Main.handle 0 sample_str_HTTPException second_is_dead sample_env 5 request app.

(** The application as it starts, with three subscribers. *)
Definition fresh_app : Main.App := {|
  Main.device_simulator := DeviceSimulator.init;
  Main.websocket_manager := three_subscribers;
|}.

(** The application after one wrong PIN. *)
Definition one_wrong_pin_app : Main.App := {|
  Main.device_simulator := Session.run one_wrong_pin_session DeviceSimulator.init;
  Main.websocket_manager := three_subscribers;
|}.

(** * Proofs: the device session *)

Section session_proofs.
Import DeviceSimulator Session SessionSpec.
Context `{!Runtime}.

(** ** The activity log *)

Lemma last_n_short {A} (n : nat) (l : list A) :
  (length l ≤ n)%nat → last_n n l = l.
Proof.
  intros Hlen. unfold last_n.
  replace (length l - n)%nat with 0%nat by lia. apply drop_0.
Qed.

Lemma last_n_length {A} (n : nat) (l : list A) :
  length (last_n n l) = Nat.min n (length l).
Proof. unfold last_n. rewrite length_drop. lia. Qed.

Lemma last_n_app_l {A} (n : nat) (l k : list A) :
  last_n n (last_n n l ++ k) = last_n n (l ++ k).
Proof.
  destruct (decide (length l ≤ n)%nat) as [Hle|Hgt].
  - by rewrite (last_n_short n l).
  - unfold last_n at 1 3. rewrite !length_app, last_n_length.
    unfold last_n. rewrite <- (drop_app_le l k) by lia.
    rewrite drop_drop. f_equal. lia.
Qed.

Lemma last_n_app_r {A} (n : nat) (l k : list A) :
  (n ≤ length k)%nat → last_n n (l ++ k) = last_n n k.
Proof.
  intros Hn. unfold last_n. rewrite length_app, drop_app_ge by lia.
  f_equal. lia.
Qed.

(** [logs[-n:]] keeps the last [n] entries. *)
Lemma slice_from_neg {A} (n : nat) (l : list A) :
  (0 < n)%nat → slice_from (- Z.of_nat n) l = last_n n l.
Proof.
  intros Hn. unfold slice_from, last_n.
  destruct (Z.ltb_spec (- Z.of_nat n) 0); [|lia]. f_equal. lia.
Qed.

Lemma _add_log_eq id timestamp level message context self :
  _add_log id timestamp level message context self =
  (Ok (), set_logs
            (last_n 100 (logs self ++ [make_entry id timestamp level message context self]))
            self).
Proof.
  unfold _add_log, make_entry.
  unfold mbind, M_bind, mret, M_ret, get, modify.
  destruct self as [st lg pt pa]; cbn -[last_n].
  destruct (DeviceState.device_info st) as [info|]; cbn -[last_n];
    match goal with |- context [lg ++ [?x]] => generalize x end; intros e;
    (destruct (Z.ltb_spec 100 (Z.of_nat (length (lg ++ [e])))) as [Hlt|Hge];
     unfold set_logs; cbn -[last_n];
     [ by rewrite (slice_from_neg 100) by lia | by rewrite last_n_short by lia ]).
Qed.

Lemma add_logs_state calls self :
  state (add_logs calls self) = state self.
Proof.
  revert self. induction calls as [|c calls IH]; intros self; [done|].
  cbn [add_logs]. by rewrite IH, _add_log_eq.
Qed.

Lemma add_logs_logs calls self :
  last_n 100 (logs (add_logs calls self))
  = last_n 100 (logs self ++ (entry_of self <$> calls)).
Proof.
  revert self. induction calls as [|c calls IH]; intros self.
  - cbn. by rewrite app_nil_r.
  - cbn [add_logs fmap list_fmap]. rewrite IH, _add_log_eq. cbn [snd logs set_logs].
    rewrite last_n_app_l, <- app_assoc. reflexivity.
Qed.

Lemma add_logs_bounded calls self :
  (length (logs self) ≤ 100)%nat → (length (logs (add_logs calls self)) ≤ 100)%nat.
Proof.
  revert self. induction calls as [|c calls IH]; intros self Hlen; [done|].
  cbn [add_logs]. apply IH. rewrite _add_log_eq. cbn -[last_n]. rewrite last_n_length. lia.
Qed.

(** ** Running a method

    [step_M] evaluates a method body on a simulator whose flags are known,
    using [_add_log_eq] for the log and splitting on what is left. *)

#[local] Arguments _add_log : simpl never.
#[local] Arguments last_n : simpl never.
#[local] Arguments make_entry : simpl never.
#[local] Arguments String.append : simpl never.
#[local] Arguments str_of_int : simpl never.
#[local] Arguments str_prefix : simpl never.
#[local] Arguments Z.sub : simpl never.
#[local] Arguments Z.add : simpl never.

Ltac unfold_M :=
  unfold mbind, M_bind, mret, M_ret, get, modify_state, modify, raise,
    asyncio_sleep, getattr.

Ltac unfold_methods :=
  unfold call, connect_device, disconnect_device, unlock_device, sign_transaction,
    confirm_transaction, generate_address, reset, clear_logs.

Ltac step_M :=
  repeat first
    [ rewrite _add_log_eq
    | progress cbn
    | match goal with
      | |- context [if ?b then _ else _] => destruct b eqn:?
      | |- context [match ?o with Some _ => _ | None => _ end] => destruct o eqn:?
      end ].

Ltac destruct_simulator self :=
  let c := fresh "c" in let u := fresh "u" in let aw := fresh "aw" in
  destruct self as [[c u ? ? ? aw ? ?] ? ? ?]; cbn in *.

(** ** The session invariant *)

Lemma init_inv : session_inv init.
Proof. split; cbn; done. Qed.

Lemma call_inv env op self : session_inv self → session_inv (call env op self).2.
Proof.
  intros [H1 H2 H3 H4]. unfold is_connected, is_unlocked in *.
  destruct self as [[c u sc b a aw la di] lg pt pa]; cbn in *.
  destruct op; unfold_methods; unfold_M; destruct c, u, aw; step_M;
    split; unfold is_connected, is_unlocked; cbn; intros; try congruence; eauto.
Qed.

Lemma call_no_attribute_error env op self :
  session_inv self → is_attribute_error (call env op self).1 = false.
Proof.
  intros [H1 H2 H3 H4]. unfold is_connected, is_unlocked in *.
  destruct self as [[c u sc b a aw la di] lg pt pa]; cbn in *.
  destruct op; unfold_methods; unfold_M; destruct c, u, aw; step_M;
    try reflexivity;
    repeat match goal with
    | Hi : true = true → _ |- _ => specialize (Hi eq_refl)
    end;
    try discriminate;
    repeat match goal with
    | Hs : is_Some None |- _ => by destruct Hs
    end.
Qed.

Lemma trace_inv calls self :
  session_inv self → Forall (λ r, session_inv r.2) (trace calls self).
Proof.
  revert self. induction calls as [|[env op] calls IH]; intros self Hinv; cbn.
  - constructor.
  - constructor; [by apply call_inv | by apply IH, call_inv].
Qed.

Lemma trace_no_attribute_error calls self :
  session_inv self →
  Forall (λ r, is_attribute_error r.1 = false) (trace calls self).
Proof.
  revert self. induction calls as [|[env op] calls IH]; intros self Hinv; cbn.
  - constructor.
  - constructor; [by apply call_no_attribute_error | by apply IH, call_inv].
Qed.

Lemma run_inv calls self : session_inv self → session_inv (run calls self).
Proof.
  revert self. induction calls as [|[env op] calls IH]; intros self Hinv; cbn;
    [done | by apply IH, call_inv].
Qed.

(** C1: after every call of every session started on a fresh simulator,
    an unlocked device is connected, and a session awaiting confirmation
    holds a pending transaction. *)
Theorem C1_session_invariants (calls : list (Env * Op)) :
  unlocked_implies_connected init ∧ awaiting_implies_pending init ∧
  Forall (λ r, unlocked_implies_connected r.2 ∧ awaiting_implies_pending r.2)
    (trace calls init).
Proof.
  split; [done|]. split; [done|].
  eapply Forall_impl; [apply trace_inv, init_inv|].
  intros [r self] [H1 H2 H3 H4]; cbn in *. split.
  - exact H1.
  - intros Haw Hnone. destruct (H3 Haw) as [tx Htx]. congruence.
Qed.

(** C10: after every call of every session started on a fresh simulator, a
    connected device has its [device_info], and no call fails with the
    [AttributeError] of reading [device_info.device_type] on [None]; so
    neither [confirm_transaction] nor [generate_address] does, whatever
    state the session has reached. *)
Theorem C10_device_info_present (calls : list (Env * Op)) :
  Forall (λ r, connected_implies_device_info r.2 ∧ is_attribute_error r.1 = false)
    (trace calls init) ∧
  (∀ env confirmed,
     is_attribute_error (confirm_transaction env confirmed (run calls init)).1 = false) ∧
  (∀ env derivation_path,
     is_attribute_error (generate_address env derivation_path (run calls init)).1 = false).
Proof.
  split; [|split].
  - apply Forall_and. split.
    + eapply Forall_impl; [apply trace_inv, init_inv|].
      intros [r self] [H1 H2 H3 H4] Hc Hnone; cbn in *.
      destruct (H4 Hc) as [info Hinfo]. congruence.
    + apply trace_no_attribute_error, init_inv.
  - intros env confirmed.
    pose proof (call_no_attribute_error env (ConfirmTransaction confirmed)
                  (run calls init) (run_inv _ _ init_inv)) as Hno.
    unfold call in Hno. unfold mbind, M_bind, mret, M_ret in Hno.
    by destruct (confirm_transaction env confirmed (run calls init)) as [[d|e] s].
  - intros env derivation_path.
    pose proof (call_no_attribute_error env (GenerateAddress derivation_path)
                  (run calls init) (run_inv _ _ init_inv)) as Hno.
    unfold call in Hno. unfold mbind, M_bind, mret, M_ret in Hno.
    by destruct (generate_address env derivation_path (run calls init)) as [[d|e] s].
Qed.

(** ** Unlocking *)

(** C9: on a connected, unlocked session [unlock_device] returns
    [{unlocked: true, already_unlocked: true}] for any PIN and leaves the
    simulator, its log included, as it was. *)
Theorem C9_unlock_idempotent (env : Env) (pin : string) (self : t) :
  is_connected self = true →
  is_unlocked self = true →
  unlock_device env pin self
  = (Ok [("unlocked", ABool true); ("already_unlocked", ABool true)], self).
Proof.
  unfold is_connected, is_unlocked. intros Hc Hu.
  unfold unlock_device. unfold_M. by rewrite Hc, Hu.
Qed.

(** One wrong PIN on a connected, locked session. *)
Lemma unlock_wrong_pin env pin self :
  is_connected self = true →
  is_unlocked self = false →
  pin ≠ default_pin →
  let r := unlock_device env pin self in
  let remaining := max_pin_attempts - (pin_attempts self + 1) in
  pin_attempts r.2 = pin_attempts self + 1 ∧
  is_unlocked r.2 = false ∧
  if remaining <=? 0
  then r.1 = Raise device_locked ∧ is_connected r.2 = false
  else r.1 = Ok (wrong_pin_response remaining) ∧ is_connected r.2 = true.
Proof.
  unfold is_connected, is_unlocked. intros Hc Hu Hpin.
  apply String.eqb_neq in Hpin.
  destruct self as [[c u sc b a aw la di] lg pt pa]; cbn in *; subst c u.
  unfold unlock_device. unfold_M. cbn. rewrite Hpin. cbn.
  rewrite _add_log_eq. cbn.
  destruct (_ <=? 0); cbn; [rewrite _add_log_eq; cbn|]; done.
Qed.

(** A disconnected simulator stays disconnected until [connect_device]. *)
Lemma call_stays_disconnected env op self :
  is_connect op = false →
  is_connected self = false →
  is_connected (call env op self).2 = false.
Proof.
  unfold is_connected. intros Hop Hc.
  destruct self as [[c u sc b a aw la di] lg pt pa]; cbn in *; subst c.
  destruct op; try discriminate; unfold_methods; unfold_M; step_M; reflexivity.
Qed.

Lemma run_stays_disconnected calls self :
  forallb (λ c, negb (is_connect c.2)) calls = true →
  is_connected self = false →
  is_connected (run calls self) = false.
Proof.
  revert self. induction calls as [|[env op] calls IH]; intros self Hops Hc; [done|].
  cbn in Hops. apply andb_true_iff in Hops as [Hop Hops].
  apply negb_true_iff in Hop. cbn [run]. apply IH; [done|].
  by apply call_stays_disconnected.
Qed.

Lemma unlock_not_connected env pin self :
  is_connected self = false →
  unlock_device env pin self = (Raise not_connected, self).
Proof.
  unfold is_connected. intros Hc. unfold unlock_device. unfold_M. by rewrite Hc.
Qed.

Lemma connect_when_disconnected env device_info self :
  is_connected self = false →
  let r := connect_device env device_info self in
  (∃ d, r.1 = Ok d) ∧ is_connected r.2 = true ∧ pin_attempts r.2 = 0.
Proof.
  unfold is_connected. intros Hc.
  destruct self as [[c u sc b a aw la di] lg pt pa]; cbn in *; subst c.
  unfold connect_device. unfold_M. cbn. rewrite _add_log_eq. cbn. eauto.
Qed.

(** C5, amended: in a connected, locked session with no wrong PIN since it
    connected ([pin_attempts = 0]), three wrong PINs in a row are answered
    with 2 and 1 attempts remaining and then the lock-out error, which
    leaves the device disconnected; from then on, as long as
    [connect_device] is not called, [unlock_device] fails with "Device not
    connected" and changes nothing, and [connect_device] succeeds and
    resets [pin_attempts] to 0. *)
Theorem C5_pin_lockout (self : t) (e1 e2 e3 : Env) (p1 p2 p3 : string) :
  is_connected self = true →
  is_unlocked self = false →
  pin_attempts self = 0 →
  p1 ≠ default_pin → p2 ≠ default_pin → p3 ≠ default_pin →
  let r1 := unlock_device e1 p1 self in
  let r2 := unlock_device e2 p2 r1.2 in
  let r3 := unlock_device e3 p3 r2.2 in
  r1.1 = Ok (wrong_pin_response 2) ∧
  r2.1 = Ok (wrong_pin_response 1) ∧
  r3.1 = Raise device_locked ∧
  is_connected r3.2 = false ∧
  ∀ calls, forallb (λ c, negb (is_connect c.2)) calls = true →
    (∀ env pin,
       unlock_device env pin (run calls r3.2) = (Raise not_connected, run calls r3.2)) ∧
    (∀ env device_info,
       let c := connect_device env device_info (run calls r3.2) in
       (∃ d, c.1 = Ok d) ∧ is_connected c.2 = true ∧ pin_attempts c.2 = 0).
Proof.
  intros Hc Hu Hpa Hp1 Hp2 Hp3 r1 r2 r3.
  destruct (unlock_wrong_pin e1 p1 self Hc Hu Hp1) as (Hpa1 & Hu1 & H1).
  rewrite Hpa in Hpa1, H1. cbn in H1. destruct H1 as [Hr1 Hc1].
  destruct (unlock_wrong_pin e2 p2 r1.2 Hc1 Hu1 Hp2) as (Hpa2 & Hu2 & H2).
  fold r1 in Hpa1. rewrite Hpa1 in Hpa2, H2. cbn in H2. destruct H2 as [Hr2 Hc2].
  destruct (unlock_wrong_pin e3 p3 r2.2 Hc2 Hu2 Hp3) as (Hpa3 & Hu3 & H3).
  fold r2 in Hpa2. rewrite Hpa2 in H3. cbn in H3. destruct H3 as [Hr3 Hc3].
  repeat split; try assumption.
  - intros env pin. apply unlock_not_connected.
    by apply run_stays_disconnected.
  - apply connect_when_disconnected. by apply run_stays_disconnected.
  - apply connect_when_disconnected. by apply run_stays_disconnected.
  - apply connect_when_disconnected. by apply run_stays_disconnected.
Qed.

(** ** Disconnecting *)

(** What [disconnect_device] leaves of a connected session: the default
    [DeviceState] and no pending transaction, but the PIN attempts made. *)
Lemma disconnect_then_status env self :
  is_connected self = true →
  let r := disconnect_device env self in
  r.1 = Ok [("disconnected", ABool true)] ∧
  state r.2 = DeviceState.default ∧
  pending_transaction r.2 = None ∧
  pin_attempts r.2 = pin_attempts self ∧
  get_status r.2
  = [("device_state", ADict (DeviceState.dict DeviceState.default));
     ("pending_transaction", ANone);
     ("pin_attempts_remaining", AInt (max_pin_attempts - pin_attempts self))].
Proof.
  unfold is_connected. intros Hc.
  destruct self as [[c u sc b a aw la di] lg pt pa]; cbn in *; subst c.
  unfold disconnect_device. unfold_M. cbn. rewrite _add_log_eq. done.
Qed.

(** ** Confirming *)

(** [confirm_transaction(True)] on a session that passes its guard: the
    response carries the signature and the hash, and the screen it reports,
    read after the revert, is the wallet screen the session is left on. *)
Lemma confirm_true_response env self tx info :
  DeviceState.awaiting_confirmation (state self) = true →
  pending_transaction self = Some tx →
  DeviceState.device_info (state self) = Some info →
  let r := confirm_transaction env true self in
  let signature :=
    sha256_hexdigest (TransactionRequest.to_address tx +:+ TransactionRequest.amount tx
                        +:+ isoformat (utcnow env 0)) in
  let result := {|
    SignatureResult.signature := signature;
    SignatureResult.transaction_hash :=
      sha256_hexdigest (signature +:+ token_hex env 16);
    SignatureResult.signed_at := utcnow env 1;
    SignatureResult.device_type := DeviceInfo.device_type info |} in
  r.1 = Ok [("confirmed", ABool true);
            ("signature_result", ADict (SignatureResult.dict result));
            ("screen", AStr "wallet")] ∧
  DeviceState.screen (state r.2) = DeviceScreen.WALLET ∧
  DeviceState.awaiting_confirmation (state r.2) = false ∧
  pending_transaction r.2 = None.
Proof.
  intros Haw Hpt Hdi.
  destruct self as [[c u sc b a aw la di] lg pt pa]; cbn in *; subst aw pt di.
  unfold confirm_transaction. unfold_M. cbn. rewrite _add_log_eq. done.
Qed.

(** ** The log ring buffer *)

(** C6: a log filled by [_add_log] alone never holds more than 100 entries;
    after 150 appends [get_logs(1000)] is the last 100 appended entries in
    the order they were appended; and [get_logs(limit)] with [limit <= 0]
    is the whole log. *)
Theorem C6_log_ring_buffer (self : t) (calls : list LogCall) (limit : Z) :
  (length (logs (add_logs calls init)) ≤ 100)%nat ∧
  ((length (logs self) ≤ 100)%nat →
     (length (logs (add_logs calls self)) ≤ 100)%nat) ∧
  (length calls = 150%nat →
     get_logs 1000 (add_logs calls self)
     = LogEntry.dict <$> drop 50 (entry_of self <$> calls)) ∧
  (limit ≤ 0 → get_logs limit self = LogEntry.dict <$> logs self).
Proof.
  split; [|split; [|split]].
  - apply add_logs_bounded. cbn. lia.
  - apply add_logs_bounded.
  - intros Hlen. unfold get_logs. cbn [Z.ltb Z.compare].
    assert (Hb : (length (logs (add_logs calls self)) ≤ 100)%nat).
    { destruct calls as [|c calls]; [done|]. cbn [add_logs].
      apply add_logs_bounded. rewrite _add_log_eq. cbn. rewrite last_n_length. lia. }
    f_equal. etransitivity; [apply (slice_from_neg 1000); lia|].
    rewrite last_n_short by lia.
    rewrite <- (last_n_short 100 (logs _)) by done.
    rewrite add_logs_logs, last_n_app_r by (rewrite length_fmap; lia).
    unfold last_n. by rewrite length_fmap, Hlen.
  - intros Hlimit. unfold get_logs.
    by destruct (Z.ltb_spec 0 limit); [lia|].
Qed.

(** Every method keeps the log within its bound, so it holds of every
    session and not only of direct appends. *)
Lemma call_logs_bounded env op self :
  (length (logs self) ≤ 100)%nat → (length (logs (call env op self).2) ≤ 100)%nat.
Proof.
  intros Hlen.
  destruct self as [[c u sc b a aw la di] lg pt pa]; cbn in *.
  destruct op; unfold_methods; unfold_M; step_M;
    rewrite ?last_n_length; lia.
Qed.

Lemma run_logs_bounded calls :
  (length (logs (run calls init)) ≤ 100)%nat.
Proof.
  assert (Hgen : ∀ self, (length (logs self) ≤ 100)%nat →
                         (length (logs (run calls self)) ≤ 100)%nat).
  { induction calls as [|[env op] calls IH]; intros self Hlen; [done|].
    cbn [run]. by apply IH, call_logs_bounded. }
  apply Hgen. cbn. lia.
Qed.

(** ** More of the session: what every call keeps *)

Import WalletSpec.

Lemma mock_addresses_lookup device_type :
  default "octra1..." (mock_addresses !! DeviceType.value device_type)
  = address_of device_type.
Proof. by destruct device_type. Qed.

Lemma mock_balances_lookup device_type :
  default "0.00000000" (mock_balances !! DeviceType.value device_type)
  = balance_of device_type.
Proof. by destruct device_type. Qed.

Lemma init_wallet_inv : wallet_inv init.
Proof. split; done. Qed.

(** Cases on the three flags, dropping those [session_inv] excludes. *)
Ltac use_true_premises :=
  repeat match goal with
  | Hi : true = true → _ |- _ => specialize (Hi eq_refl)
  | Hi : false = false → _ |- _ => specialize (Hi eq_refl)
  end.

Ltac leb_to_prop :=
  repeat match goal with
  | Hb : (_ <=? _) = false |- _ => apply Z.leb_gt in Hb
  | Hb : (_ <=? _) = true |- _ => apply Z.leb_le in Hb
  end.

(** As [step_M], but splitting on a variable before a compound test. *)
Ltac step_M_vars :=
  repeat first
    [ rewrite _add_log_eq
    | progress cbn
    | match goal with
      | |- context [if ?b then _ else _] => is_var b; destruct b eqn:?
      | |- context [match ?o with Some _ => _ | None => _ end] =>
          is_var o; destruct o eqn:?
      end
    | match goal with
      | |- context [if ?b then _ else _] => destruct b eqn:?
      | |- context [match ?o with Some _ => _ | None => _ end] => destruct o eqn:?
      end ].

Lemma call_wallet_inv env op self :
  wallet_inv self → wallet_inv (call env op self).2.
Proof.
  intros [Hs H1 H2 H3 H4 H5 H6 H7 H8].
  split; [by apply call_inv|..]; destruct Hs as [S1 S2 S3 S4];
    unfold screen_of_flags, max_pin_attempts in *; unfold is_connected, is_unlocked in *;
    destruct self as [[c u sc b a aw la di] lg pt pa]; cbn in *;
    destruct c, u, aw; cbn in *; use_true_premises; try discriminate;
    repeat match goal with
    | Hx : _ ∧ _ |- _ => destruct Hx
    | Hx : ∃ _, _ |- _ => destruct Hx
    end; simplify_eq;
    destruct op; unfold_methods; unfold getattr; unfold_M; step_M_vars;
    rewrite ?mock_addresses_lookup, ?mock_balances_lookup;
    intros; leb_to_prop; unfold max_pin_attempts in *; try done; try lia; eauto.
Qed.

Lemma run_wallet_inv calls self : wallet_inv self → wallet_inv (run calls self).
Proof.
  revert self. induction calls as [|[env op] calls IH]; intros self Hinv; cbn;
    [done | by apply IH, call_wallet_inv].
Qed.

(** The screen a session is left on is the one of the transition table,
    after whatever calls: home while locked, confirm while a transaction is
    pending, wallet otherwise; never the signed or the error screen. *)
Theorem session_screen_table (calls : list (Env * Op)) :
  DeviceState.screen (state (run calls init)) = screen_of_flags (run calls init) ∧
  DeviceState.screen (state (run calls init)) ≠ DeviceScreen.SIGNED ∧
  DeviceState.screen (state (run calls init)) ≠ DeviceScreen.ERROR.
Proof.
  destruct (run_wallet_inv calls init init_wallet_inv) as [_ Hscreen _ _ _ _ _ _ _].
  rewrite Hscreen. unfold screen_of_flags.
  split; [done|]. by split; repeat case_match.
Qed.

(** The wallet a session shows is the connected device's: while unlocked,
    the address and the balance are the mock table's entries for the type of
    the device that connected; while locked, they are the defaults. *)
Theorem session_wallet_of_device (calls : list (Env * Op)) :
  (is_unlocked (run calls init) = false →
   DeviceState.address (state (run calls init)) = "octra1..." ∧
   DeviceState.balance (state (run calls init)) = "0.00000000") ∧
  (is_unlocked (run calls init) = true →
   ∃ info,
     DeviceState.device_info (state (run calls init)) = Some info ∧
     DeviceState.address (state (run calls init))
     = address_of (DeviceInfo.device_type info) ∧
     DeviceState.balance (state (run calls init))
     = balance_of (DeviceInfo.device_type info)).
Proof.
  destruct (run_wallet_inv calls init init_wallet_inv) as [_ _ Hl Hu _ _ _ _ _].
  by split.
Qed.

(** The failed-PIN counter stays within 0..3 whatever the calls, is below 3
    while the device is connected and 0 while it is unlocked; so
    [get_status] never reports a negative number of attempts remaining, nor
    more than 3. *)
Theorem session_pin_attempts_bounds (calls : list (Env * Op)) :
  0 ≤ pin_attempts (run calls init) ≤ 3 ∧
  (is_connected (run calls init) = true → pin_attempts (run calls init) < 3) ∧
  (is_unlocked (run calls init) = true → pin_attempts (run calls init) = 0) ∧
  ∃ remaining,
    dict_get "pin_attempts_remaining" (get_status (run calls init))
    = Some (AInt remaining) ∧
    0 ≤ remaining ≤ 3.
Proof.
  destruct (run_wallet_inv calls init init_wallet_inv) as [_ _ _ _ _ Ha Hc Hu _].
  unfold max_pin_attempts in *. repeat split; try done; try lia.
  exists (3 - pin_attempts (run calls init)). split; [done | lia].
Qed.

(** A transaction is held exactly while the session awaits confirmation,
    and then the device is unlocked and connected. *)
Theorem session_pending_iff_awaiting (calls : list (Env * Op)) :
  (pending_transaction (run calls init) = None ↔
   DeviceState.awaiting_confirmation (state (run calls init)) = false) ∧
  (is_Some (pending_transaction (run calls init)) →
   is_unlocked (run calls init) = true ∧ is_connected (run calls init) = true).
Proof.
  destruct (run_wallet_inv calls init init_wallet_inv)
    as [[S1 S2 S3 S4] _ _ _ Hp _ _ _ _].
  assert (Haw : is_Some (pending_transaction (run calls init)) →
                DeviceState.awaiting_confirmation (state (run calls init)) = true).
  { intros [tx Htx].
    destruct (DeviceState.awaiting_confirmation _) eqn:Haw; [done|].
    rewrite Hp in Htx by done. discriminate. }
  split; [split|].
  - intros Hnone. destruct (DeviceState.awaiting_confirmation _) eqn:Haw'; [|done].
    destruct (S3 eq_refl) as [tx Htx]. congruence.
  - apply Hp.
  - intros Hsome. split; [by apply S2, Haw | by apply S1, S2, Haw].
Qed.

Lemma call_raise_state (env : Env) (op : Op) (self : t) (e : PyExn) :
  (call env op self).1 = Raise e →
  (e = device_locked ∧ (∃ pin, op = Unlock pin) ∧
   is_connected (call env op self).2 = false) ∨
  (call env op self).2 = self.
Proof.
  destruct self as [[c u sc b a aw la di] lg pt pa].
  destruct op; unfold is_connected; unfold_methods; unfold getattr; unfold_M;
    step_M_vars; intros Hr; simplify_eq; by eauto 6.
Qed.

(** A call that raises leaves the simulator exactly as it was, log
    included, unless what it raises is the PIN lock-out. *)
Theorem call_raise_unchanged (env : Env) (op : Op) (self : t) (e : PyExn) :
  (call env op self).1 = Raise e →
  e ≠ device_locked →
  (call env op self).2 = self.
Proof. intros Hr Hne. by destruct (call_raise_state env op self e Hr) as [[? _]|?]. Qed.

(** ** Signing *)

(** While a transaction is pending a second [sign_transaction] is refused
    and the pending transaction stays the first one. *)
Theorem sign_transaction_while_pending (env1 env2 : Env)
    (tx1 tx2 : TransactionRequest.t) (self : t) :
  ready self →
  pending_transaction (sign_transaction env1 tx1 self).2 = Some tx1 ∧
  sign_transaction env2 tx2 (sign_transaction env1 tx1 self).2
  = (Raise (Exception "Another transaction is already pending confirmation"),
     (sign_transaction env1 tx1 self).2).
Proof.
  unfold ready, is_connected, is_unlocked. intros (Hc & Hu & Haw).
  destruct self as [[c u sc b a aw la di] lg pt pa]; cbn in *; subst c u aw.
  unfold sign_transaction. unfold_M. cbn. rewrite _add_log_eq. done.
Qed.

(** Signing and then confirming or rejecting brings the session back to
    the wallet screen with nothing pending, ready to sign again, and leaves
    the connection, the device, the address, the balance and the PIN
    counter as they were. *)
Theorem sign_then_confirm (env1 env2 : Env) (tx : TransactionRequest.t)
    (confirmed : bool) (self : t) (info : DeviceInfo.t) :
  ready self →
  DeviceState.device_info (state self) = Some info →
  let r := confirm_transaction env2 confirmed (sign_transaction env1 tx self).2 in
  result_get "confirmed" r.1 = Some (ABool confirmed) ∧
  result_get "screen" r.1 = Some (AStr "wallet") ∧
  ready r.2 ∧
  pending_transaction r.2 = None ∧
  DeviceState.screen (state r.2) = DeviceScreen.WALLET ∧
  DeviceState.device_info (state r.2) = Some info ∧
  DeviceState.address (state r.2) = DeviceState.address (state self) ∧
  DeviceState.balance (state r.2) = DeviceState.balance (state self) ∧
  pin_attempts r.2 = pin_attempts self.
Proof.
  unfold ready, is_connected, is_unlocked. intros (Hc & Hu & Haw) Hdi.
  destruct self as [[c u sc b a aw la di] lg pt pa]; cbn in *; subst c u aw di.
  unfold sign_transaction, confirm_transaction, getattr. unfold_M. cbn.
  rewrite _add_log_eq. cbn.
  destruct confirmed; cbn; rewrite _add_log_eq; done.
Qed.

(** ** Addresses *)

Lemma str_prefix_length (n : nat) (s : string) :
  (String.length (str_prefix n s) ≤ n)%nat.
Proof.
  unfold str_prefix. revert s. induction n as [|n IH]; intros [|ch s]; cbn; try lia.
  specialize (IH s). lia.
Qed.

Lemma append_length (s1 s2 : string) :
  String.length (s1 +:+ s2) = (String.length s1 + String.length s2)%nat.
Proof.
  induction s1 as [|ch s1 IH]; [done|].
  change (S (String.length (s1 +:+ s2))
          = S (String.length s1 + String.length s2)). by rewrite IH.
Qed.

(** On a connected, unlocked session [generate_address] returns an address
    of at most 38 characters that starts with "octra1", for the path it was
    given, and touches nothing of the session but the log, to which it adds
    one entry: the wallet's own address and balance stay. *)
Theorem generate_address_frame (env : Env) (derivation_path : string)
    (self : t) (info : DeviceInfo.t) :
  is_connected self = true →
  is_unlocked self = true →
  DeviceState.device_info (state self) = Some info →
  let r := generate_address env derivation_path self in
  (∃ a,
     r.1 = Ok a ∧
     AddressInfo.derivation_path a = derivation_path ∧
     AddressInfo.address_type a = "octra" ∧
     String.prefix "octra1" (AddressInfo.address a) = true ∧
     (String.length (AddressInfo.address a) ≤ 38)%nat) ∧
  state r.2 = state self ∧
  pending_transaction r.2 = pending_transaction self ∧
  pin_attempts r.2 = pin_attempts self ∧
  ∃ entry,
    logs r.2 = last_n 100 (logs self ++ [entry]) ∧
    LogEntry.level entry = LogLevel.INFO.
Proof.
  unfold is_connected, is_unlocked. intros Hc Hu Hdi.
  destruct self as [[c u sc b a aw la di] lg pt pa]; cbn in *; subst c u di.
  unfold generate_address, getattr. unfold_M. cbn. rewrite _add_log_eq. cbn.
  split; [|by eauto 10].
  eexists. split; [reflexivity|]. cbn.
  split; [done|]. split; [done|].
  split; [by destruct (str_prefix 32 _)|].
  pose proof (str_prefix_length 32
    (sha256_hexdigest (DeviceType.value (DeviceInfo.device_type info)
                         +:+ derivation_path +:+ token_hex env 8))).
  rewrite append_length. cbn. lia.
Qed.

(** ** The log *)

(** [clear_logs] leaves exactly one entry, the record of the clearing, and
    nothing else of the simulator changes. *)
Theorem clear_logs_leaves_one_entry (env : Env) (self : t) :
  let r := clear_logs env self in
  r.1 = Ok () ∧
  (∃ entry,
     logs r.2 = [entry] ∧
     LogEntry.message entry = "Activity logs cleared" ∧
     LogEntry.level entry = LogLevel.INFO) ∧
  state r.2 = state self ∧
  pending_transaction r.2 = pending_transaction self ∧
  pin_attempts r.2 = pin_attempts self.
Proof.
  destruct self as [st lg pt pa].
  unfold clear_logs. unfold_M. cbn. rewrite _add_log_eq. cbn.
  rewrite last_n_short by (cbn; lia). eauto 10.
Qed.

(** [get_logs(limit)] returns the newest entries in log order: a suffix of
    the log, of [min(limit, len)] entries for a positive limit and the
    whole log otherwise. *)
Theorem get_logs_suffix (limit : Z) (self : t) :
  get_logs limit self `suffix_of` (LogEntry.dict <$> logs self) ∧
  length (get_logs limit self)
  = (if 0 <? limit
     then Nat.min (Z.to_nat limit) (length (logs self))
     else length (logs self)).
Proof.
  unfold get_logs. destruct (Z.ltb_spec 0 limit) as [Hpos|Hneg].
  - replace (- limit) with (- Z.of_nat (Z.to_nat limit)) by lia.
    rewrite slice_from_neg by lia. unfold last_n. split.
    + rewrite fmap_drop. apply suffix_drop.
    + rewrite length_fmap, length_drop. lia.
  - split; [done | by rewrite length_fmap].
Qed.

(** ** Resetting, unlocking, disconnecting *)

(** [reset] brings any simulator to the status of a fresh one, and the
    device can connect again. *)
Theorem reset_to_fresh_status (env env' : Env) (device_info : DeviceInfo.t) (self : t) :
  (reset env self).1 = Ok () ∧
  get_status (reset env self).2 = get_status init ∧
  state (reset env self).2 = DeviceState.default ∧
  ∃ d, (connect_device env' device_info (reset env self).2).1 = Ok d.
Proof.
  destruct self as [st lg pt pa].
  unfold reset, connect_device. unfold_M. cbn.
  repeat (rewrite _add_log_eq; cbn). repeat split. eauto.
Qed.

(** The correct PIN on a connected, locked session unlocks it whatever the
    number of wrong PINs before: the response carries the address and the
    balance of the device's type, and the counter is back to 0, that is 3
    attempts remaining. *)
Theorem unlock_correct_pin (env : Env) (self : t) (info : DeviceInfo.t) :
  is_connected self = true →
  is_unlocked self = false →
  DeviceState.device_info (state self) = Some info →
  let r := unlock_device env default_pin self in
  r.1 = Ok [("unlocked", ABool true);
            ("address", AStr (address_of (DeviceInfo.device_type info)));
            ("balance", AStr (balance_of (DeviceInfo.device_type info)));
            ("screen", AStr "wallet")] ∧
  is_unlocked r.2 = true ∧
  is_connected r.2 = true ∧
  pin_attempts r.2 = 0 ∧
  dict_get "pin_attempts_remaining" (get_status r.2) = Some (AInt 3).
Proof.
  unfold is_connected, is_unlocked. intros Hc Hu Hdi.
  destruct self as [[c u sc b a aw la di] lg pt pa]; cbn in *; subst c u di.
  unfold unlock_device. unfold_M. cbn. rewrite _add_log_eq. cbn.
  by rewrite mock_addresses_lookup, mock_balances_lookup.
Qed.

(** The log entry of a disconnection names the device but carries no
    device type: the state is reset before the entry is built. *)
Theorem disconnect_log_entry (env : Env) (self : t) (info : DeviceInfo.t) :
  is_connected self = true →
  DeviceState.device_info (state self) = Some info →
  ∃ entry,
    logs (disconnect_device env self).2 = last_n 100 (logs self ++ [entry]) ∧
    LogEntry.level entry = LogLevel.WARNING ∧
    LogEntry.message entry = DeviceInfo.name info +:+ " disconnected" ∧
    LogEntry.device_type entry = None.
Proof.
  unfold is_connected. intros Hc Hdi.
  destruct self as [[c u sc b a aw la di] lg pt pa]; cbn in *; subst c di.
  unfold disconnect_device. unfold_M. cbn. rewrite _add_log_eq. cbn. eauto.
Qed.

End session_proofs.

(** ** The session on concrete inputs *)

(** Without the invariant the dereference does fail: a connected, unlocked
    simulator with no [device_info] makes [generate_address] raise. *)
Example generate_address_without_device_info :
  Session.is_attribute_error
    (DeviceSimulator.generate_address sample_env "m/44'/60'/0'/0/0"
       (DeviceSimulator.set_state
          (DeviceState.set_is_unlocked true
             (DeviceState.set_is_connected true DeviceState.default))
          DeviceSimulator.init)).1 = true.
Proof. reflexivity. Qed.

(** The scenario of the specification: connect a Ledger, fail one PIN,
    unlock, request a signature. *)
Example scenario_connect_unlock_sign :
  let s1 := (DeviceSimulator.connect_device sample_env ledger_nano_s
               DeviceSimulator.init).2 in
  let r2 := DeviceSimulator.unlock_device sample_env "0000" s1 in
  let r3 := DeviceSimulator.unlock_device sample_env "1234" r2.2 in
  let r4 := DeviceSimulator.sign_transaction sample_env sample_transaction r3.2 in
  DeviceSimulator.is_connected s1 = true ∧
  result_get "attempts_remaining" r2.1 = Some (AInt 2) ∧
  result_get "unlocked" r3.1 = Some (ABool true) ∧
  result_get "address" r3.1
  = Some (AStr "octra1qpzry9x8gf2tvdw0s3jn54khce6mua7l5ta2m8c") ∧
  result_get "awaiting_confirmation" r4.1 = Some (ABool true) ∧
  result_get "screen" r4.1 = Some (AStr "confirm").
Proof. vm_compute. repeat split; reflexivity. Qed.

(** The invariants are not vacuous: a session awaiting confirmation is
    unlocked, connected, and holds its transaction and its device. *)
Example signing_session_flags :
  let self := Session.run signing_session DeviceSimulator.init in
  DeviceSimulator.is_unlocked self = true ∧
  DeviceSimulator.is_connected self = true ∧
  DeviceState.awaiting_confirmation (DeviceSimulator.state self) = true ∧
  DeviceSimulator.pending_transaction self = Some sample_transaction ∧
  DeviceState.device_info (DeviceSimulator.state self) = Some ledger_nano_s.
Proof. vm_compute. repeat split; reflexivity. Qed.

(** On an unlocked session [generate_address] reads the device type and
    returns an address. *)
Example generate_address_unlocked :
  AddressInfo.address <$>
    match (DeviceSimulator.generate_address sample_env "m/44'/60'/0'/0/0"
             (Session.run unlocked_session DeviceSimulator.init)).1 with
    | Ok a => Some a
    | Raise _ => None
    end
  = Some "octra1sha256(ledgerm/44'/60'/0'/0/0tok".
Proof. vm_compute. reflexivity. Qed.

Lemma C9_unlock_idempotent_witness :
  let self := Session.run unlocked_session DeviceSimulator.init in
  DeviceSimulator.is_connected self = true ∧
  DeviceSimulator.is_unlocked self = true ∧
  DeviceSimulator.unlock_device sample_env "9999" self
  = (Ok [("unlocked", ABool true); ("already_unlocked", ABool true)], self).
Proof.
  split; [reflexivity|]. split; [reflexivity|].
  apply (C9_unlock_idempotent sample_env "9999"
           (Session.run unlocked_session DeviceSimulator.init));
    reflexivity.
Defined.

Lemma C5_pin_lockout_witness :
  let self := (DeviceSimulator.connect_device sample_env ledger_nano_s
                 DeviceSimulator.init).2 in
  let r1 := DeviceSimulator.unlock_device sample_env "0000" self in
  let r2 := DeviceSimulator.unlock_device sample_env "1111" r1.2 in
  let r3 := DeviceSimulator.unlock_device sample_env "4321" r2.2 in
  r1.1 = Ok (SessionSpec.wrong_pin_response 2) ∧
  r2.1 = Ok (SessionSpec.wrong_pin_response 1) ∧
  r3.1 = Raise SessionSpec.device_locked ∧
  DeviceSimulator.is_connected r3.2 = false.
Proof.
  pose proof (C5_pin_lockout
    (DeviceSimulator.connect_device sample_env ledger_nano_s DeviceSimulator.init).2
    sample_env sample_env sample_env "0000" "1111" "4321"
    eq_refl eq_refl eq_refl) as H.
  cbv zeta in H.
  destruct H as (H1 & H2 & H3 & H4 & _); [discriminate..|].
  repeat split; assumption.
Defined.

(** C5, as stated, fails on a session with one wrong PIN behind it: of three
    further wrong PINs the second is answered with the lock-out error and
    the third with "Device not connected". *)
Lemma C5_counterexample :
  let self := Session.run one_wrong_pin_session DeviceSimulator.init in
  let r1 := DeviceSimulator.unlock_device sample_env "0000" self in
  let r2 := DeviceSimulator.unlock_device sample_env "0000" r1.2 in
  let r3 := DeviceSimulator.unlock_device sample_env "0000" r2.2 in
  DeviceSimulator.is_connected self = true ∧
  DeviceSimulator.is_unlocked self = false ∧
  r2.1 = Raise SessionSpec.device_locked ∧
  r3.1 = Raise SessionSpec.not_connected.
Proof. vm_compute. repeat split; reflexivity. Qed.

(** C2 on a session with one wrong PIN: after [disconnect_device],
    [get_status] shows the default state and no pending transaction, but 2
    PIN attempts remaining, not 3. *)
Theorem C2_disconnect_keeps_pin_attempts :
  let self := Session.run one_wrong_pin_session DeviceSimulator.init in
  let r := DeviceSimulator.disconnect_device sample_env self in
  DeviceSimulator.is_connected self = true ∧
  r.1 = Ok [("disconnected", ABool true)] ∧
  DeviceSimulator.get_status r.2
  = [("device_state", ADict (DeviceState.dict DeviceState.default));
     ("pending_transaction", ANone);
     ("pin_attempts_remaining", AInt 2)].
Proof. vm_compute. repeat split; reflexivity. Qed.

(** [reset], the sibling of [disconnect_device], does restore the count. *)
Example reset_restores_pin_attempts :
  result_get "pin_attempts_remaining"
    (Ok (DeviceSimulator.get_status
           (DeviceSimulator.reset sample_env
              (Session.run one_wrong_pin_session DeviceSimulator.init)).2))
  = Some (AInt 3).
Proof. reflexivity. Qed.

(** C3 on a session awaiting confirmation: [confirm_transaction(True)]
    returns the signature and the hash, but with screen "wallet": the revert
    has run before the response is built, and the session is on the wallet
    screen when the call returns. *)
Theorem C3_confirm_reports_wallet :
  let self := Session.run signing_session DeviceSimulator.init in
  let r := DeviceSimulator.confirm_transaction sample_env true self in
  DeviceState.awaiting_confirmation (DeviceSimulator.state self) = true ∧
  DeviceSimulator.pending_transaction self = Some sample_transaction ∧
  r.1 = Ok [("confirmed", ABool true);
            ("signature_result",
             ADict [("signature", AStr "sha256(octra1abc...10.5T0)");
                    ("transaction_hash",
                     AStr "sha256(sha256(octra1abc...10.5T0)tok16)");
                    ("signed_at", ADatetime 1);
                    ("device_type", AStr "ledger")]);
            ("screen", AStr "wallet")] ∧
  DeviceState.screen (DeviceSimulator.state r.2) = DeviceScreen.WALLET.
Proof. vm_compute. repeat split; reflexivity. Qed.

Lemma C6_log_ring_buffer_witness :
  DeviceSimulator.get_logs 1000
    (SessionSpec.add_logs (sample_log_call <$> seq 0 150) DeviceSimulator.init)
  = LogEntry.dict <$>
      drop 50 (SessionSpec.entry_of DeviceSimulator.init <$> (sample_log_call <$> seq 0 150)) ∧
  DeviceSimulator.get_logs 0 DeviceSimulator.init
  = LogEntry.dict <$> DeviceSimulator.logs DeviceSimulator.init.
Proof.
  destruct (C6_log_ring_buffer DeviceSimulator.init
              (sample_log_call <$> seq 0 150) 0) as (_ & _ & H150 & H0).
  split; [apply H150; reflexivity | apply H0; lia].
Defined.

(** * Proofs: the computation stub *)

Section fhe_proofs.
Import FHEService.
Context `{!Runtime}.

(** [max] of a non-empty list, as the fold computes it. *)
Lemma foldl_max_spec (n : Z) (ns : list Z) :
  foldl Z.max n ns ∈ n :: ns ∧ Forall (λ x, x ≤ foldl Z.max n ns) (n :: ns).
Proof.
  revert n. induction ns as [|k ns IH]; intros n; cbn.
  - split; [apply list_elem_of_here | by repeat constructor].
  - destruct (IH (Z.max n k)) as [Hin Hall].
    apply Forall_cons in Hall as [Hhd Hall]. split.
    + apply elem_of_cons in Hin as [Heq|Hin].
      * rewrite Heq. destruct (Z.max_spec n k) as [[_ ->]|[_ ->]].
        -- apply list_elem_of_further, list_elem_of_here.
        -- apply list_elem_of_here.
      * by do 2 apply list_elem_of_further.
    + repeat constructor; [lia | lia | done].
Qed.

Lemma new_ok encrypted_data data_type can_compute noise_level :
  1 ≤ noise_level ≤ 10 →
  EncryptedValue.new encrypted_data data_type can_compute noise_level
  = Ok {| EncryptedValue.encrypted_data := encrypted_data;
          EncryptedValue.data_type := data_type;
          EncryptedValue.can_compute := can_compute;
          EncryptedValue.noise_level := noise_level |}.
Proof.
  intros Hn. unfold EncryptedValue.new, EncryptedValue.noise_level_ok.
  destruct (Z.leb_spec 1 noise_level); [|lia].
  destruct (Z.leb_spec noise_level 10); [done|lia].
Qed.

(** One computation on operands of which one has a noise level of at least 0:
    it returns, with the noise level and the flag the code computes. *)
Lemma _mock_compute_spec operation operands :
  Exists (λ x, 0 ≤ EncryptedValue.noise_level x) operands →
  ∃ r m,
    _mock_compute operation operands = Ok r ∧
    m ∈ EncryptedValue.noise_level <$> operands ∧
    Forall (λ n, n ≤ m) (EncryptedValue.noise_level <$> operands) ∧
    EncryptedValue.noise_level r = Z.min (m + 1) 10 ∧
    EncryptedValue.can_compute r = bool_decide (EncryptedValue.noise_level r < 8).
Proof.
  intros Hex. unfold _mock_compute.
  destruct operands as [|x operands]; [by apply Exists_nil in Hex|].
  cbn [fmap list_fmap].
  set (ns := EncryptedValue.noise_level <$> operands).
  destruct (foldl_max_spec (EncryptedValue.noise_level x) ns) as [Hin Hall].
  set (m := foldl Z.max (EncryptedValue.noise_level x) ns) in *.
  assert (Hm : 0 ≤ m).
  { apply Exists_exists in Hex as (y & Hy & Hy0).
    rewrite Forall_forall in Hall.
    assert (EncryptedValue.noise_level y ≤ m); [|lia].
    apply Hall. change (EncryptedValue.noise_level y ∈ EncryptedValue.noise_level <$> x :: operands).
    by apply list_elem_of_fmap_2. }
  rewrite new_ok by lia.
  eexists _, m. split; [reflexivity|]. cbn.
  repeat split; try done.
  destruct (Z.ltb_spec (Z.min (m + 1) 10) 8).
  - by rewrite bool_decide_eq_true_2.
  - by rewrite bool_decide_eq_false_2 by lia.
Qed.

(** Feeding a result back: the next noise level is no lower, and at most
    10, whatever the other operands are. *)
Lemma compute_chain_spec rounds previous :
  1 ≤ EncryptedValue.noise_level previous ≤ 10 →
  ∃ rs,
    compute_chain rounds previous = Ok rs ∧
    length rs = length rounds ∧
    Sorted Z.le (EncryptedValue.noise_level <$> previous :: rs) ∧
    Forall (λ r, EncryptedValue.noise_level r ≤ 10) rs.
Proof.
  revert previous. induction rounds as [|[operation others] rounds IH];
    intros previous Hprev; cbn [compute_chain].
  - exists []. repeat split; by repeat constructor.
  - destruct (_mock_compute_spec operation (previous :: others))
      as (r & m & -> & Hin & Hall & Hnoise & _).
    { apply Exists_cons_hd. lia. }
    cbn [fmap list_fmap] in Hall. apply Forall_cons in Hall as [Hle _].
    destruct (IH r) as (rs & -> & Hlen & Hsorted & Hcap); [lia|].
    exists (r :: rs). repeat split.
    + cbn. by rewrite Hlen.
    + cbn [fmap list_fmap] in *. constructor; [done|]. constructor. lia.
    + constructor; [lia | done].
Qed.

(** C7: on a non-empty list of valid operands [_mock_compute] returns a
    value whose noise level is [min(m + 1, 10)], [m] being the greatest
    operand noise level, and whose [can_compute] says whether that is below
    8; and when results are fed back as operands, round after round, every
    round returns, the noise levels never decrease and none exceeds 10. *)
Theorem C7_noise_level (operation : FHEOperation.t) (operands : list EncryptedValue.t) :
  operands ≠ [] →
  Forall EncryptedValue.valid operands →
  ∃ r m,
    _mock_compute operation operands = Ok r ∧
    m ∈ EncryptedValue.noise_level <$> operands ∧
    Forall (λ n, n ≤ m) (EncryptedValue.noise_level <$> operands) ∧
    EncryptedValue.noise_level r = Z.min (m + 1) 10 ∧
    EncryptedValue.can_compute r = bool_decide (EncryptedValue.noise_level r < 8) ∧
    ∀ rounds, ∃ rs,
      compute_chain rounds r = Ok rs ∧
      length rs = length rounds ∧
      Sorted Z.le (EncryptedValue.noise_level <$> r :: rs) ∧
      Forall (λ r', EncryptedValue.noise_level r' ≤ 10) (r :: rs).
Proof.
  intros Hne Hvalid.
  destruct (_mock_compute_spec operation operands)
    as (r & m & Hr & Hin & Hall & Hnoise & Hcan).
  { destruct operands as [|x operands]; [done|].
    apply Forall_cons in Hvalid as [[Hx _] _]. apply Exists_cons_hd. lia. }
  exists r, m. repeat split; try done.
  intros rounds.
  assert (Hm : 1 ≤ m).
  { apply list_elem_of_fmap in Hin as (y & -> & Hy).
    rewrite Forall_forall in Hvalid. destruct (Hvalid y Hy). lia. }
  destruct (compute_chain_spec rounds r) as (rs & Hrs & Hlen & Hsorted & Hcap); [lia|].
  exists rs. repeat split; try done. constructor; [lia | done].
Qed.

(** C4, amended: with an empty operand list [perform_computation] succeeds
    for every operation: [success] is true, there is no error message, the
    result is an integer of noise level 2 that can still be computed on, and
    the gas is the operation's cost. *)
Theorem C4_empty_operands_succeed (env : Env) (operation : FHEOperation.t)
    (parameters : option Dict) :
  ∃ r,
    perform_computation env {|
      FHEComputeRequest.operation := operation;
      FHEComputeRequest.operands := [];
      FHEComputeRequest.parameters := parameters |} = Ok r ∧
    FHEComputeResult.success r = true ∧
    FHEComputeResult.error_message r = None ∧
    FHEComputeResult.result r = {|
      EncryptedValue.encrypted_data :=
        sha256_hexdigest (FHEOperation.value operation +:+ "_");
      EncryptedValue.data_type := FHEDataType.INTEGER;
      EncryptedValue.can_compute := true;
      EncryptedValue.noise_level := 2 |} ∧
    FHEComputeResult.gas_used r
    = default 100 (operation_costs !! FHEOperation.value operation).
Proof.
  eexists. split.
  - unfold perform_computation, _mock_compute, time_sleep. cbn. reflexivity.
  - cbn. repeat split.
Qed.

End fhe_proofs.

Lemma C7_noise_level_witness :
  ∃ r m,
    FHEService._mock_compute FHEOperation.MULTIPLY sample_operands = Ok r ∧
    m ∈ EncryptedValue.noise_level <$> sample_operands ∧
    Forall (λ n, n ≤ m) (EncryptedValue.noise_level <$> sample_operands) ∧
    EncryptedValue.noise_level r = Z.min (m + 1) 10 ∧
    EncryptedValue.can_compute r = bool_decide (EncryptedValue.noise_level r < 8) ∧
    ∀ rounds, ∃ rs,
      FHEService.compute_chain rounds r = Ok rs ∧
      length rs = length rounds ∧
      Sorted Z.le (EncryptedValue.noise_level <$> r :: rs) ∧
      Forall (λ r', EncryptedValue.noise_level r' ≤ 10) (r :: rs).
Proof.
  apply (C7_noise_level FHEOperation.MULTIPLY sample_operands).
  - discriminate.
  - repeat constructor; cbn; lia.
Defined.

(** The noise levels of seven rounds on the result of [sample_operands]. *)
Example compute_chain_noise :
  match FHEService._mock_compute FHEOperation.ADD sample_operands with
  | Ok r =>
      match FHEService.compute_chain
              (replicate 7 (FHEOperation.ADD, sample_operands)) r with
      | Ok rs => EncryptedValue.noise_level <$> r :: rs
      | Raise _ => []
      end
  | Raise _ => []
  end = [6; 7; 8; 9; 10; 10; 10; 10].
Proof. reflexivity. Qed.

(** C4, as stated, fails: on an empty operand list the computation succeeds. *)
Lemma C4_counterexample :
  FHEService.perform_computation sample_env empty_request
  = Ok {| FHEComputeResult.operation := FHEOperation.ADD;
          FHEComputeResult.result := {|
            EncryptedValue.encrypted_data := "sha256(add_)";
            EncryptedValue.data_type := FHEDataType.INTEGER;
            EncryptedValue.can_compute := true;
            EncryptedValue.noise_level := 2 |};
          FHEComputeResult.computation_time := 0%float;
          FHEComputeResult.gas_used := 100;
          FHEComputeResult.success := true;
          FHEComputeResult.error_message := None |}.
Proof. vm_compute. reflexivity. Qed.

(** An operand list pydantic would not have let through does make the
    computation fail, and the failure is reported in the result. *)
Example perform_computation_failure :
  FHEComputeResult.success <$>
    match FHEService.perform_computation sample_env {|
            FHEComputeRequest.operation := FHEOperation.ADD;
            FHEComputeRequest.operands :=
              [{| EncryptedValue.encrypted_data := "aa";
                  EncryptedValue.data_type := FHEDataType.INTEGER;
                  EncryptedValue.can_compute := true;
                  EncryptedValue.noise_level := -5 |}];
            FHEComputeRequest.parameters := None |} with
    | Ok r => Some r
    | Raise _ => None
    end = Some false.
Proof. reflexivity. Qed.

(** * Proofs: the broadcast hub *)

Section broadcast_proofs.
Import WebSocketManager.
Context `{!Runtime}.
Variable send_text : WebSocket → string → bool.

Lemma broadcast_send_spec message_str connections sent disconnected :
  broadcast_send send_text message_str connections sent disconnected
  = (sent ++ ((λ c, (c, message_str)) <$>
                filter (λ c, send_text c message_str = true) connections),
     disconnected ++ filter (λ c, send_text c message_str = false) connections).
Proof.
  revert sent disconnected.
  induction connections as [|c connections IH]; intros sent disconnected;
    cbn [broadcast_send].
  - by rewrite !filter_nil, !app_nil_r.
  - destruct (send_text c message_str) eqn:Hc.
    + rewrite IH, filter_cons_True, filter_cons_False by (by rewrite Hc).
      cbn. by rewrite <- app_assoc.
    + rewrite IH, filter_cons_False, filter_cons_True by (by rewrite Hc).
      by rewrite <- app_assoc.
Qed.

Lemma list_remove_app_notin (x : WebSocket) (pre l : list WebSocket) :
  x ∉ pre → list_remove x (pre ++ x :: l) = pre ++ l.
Proof.
  induction pre as [|y pre IH]; intros Hx; cbn.
  - by rewrite bool_decide_eq_true_2.
  - apply not_elem_of_cons in Hx as [Hxy Hx].
    rewrite bool_decide_eq_false_2 by done. by rewrite IH.
Qed.

(** The clean-up loop removes every dead connection, each as often as it
    is listed, and nothing else. *)
Lemma disconnect_dead (alive : WebSocket → bool) (l pre : list WebSocket)
    (info : gmap WebSocket ConnectionInfo) :
  Forall (λ c, alive c = true) pre →
  foldl (λ self c, disconnect c self)
    {| active_connections := pre ++ l; connection_info := info |}
    (filter (λ c, alive c = false) l)
  = {| active_connections := pre ++ filter (λ c, alive c = true) l;
       connection_info :=
         foldl (λ m c, delete c m) info (filter (λ c, alive c = false) l) |}.
Proof.
  revert pre info. induction l as [|c l IH]; intros pre info Hpre.
  - done.
  - destruct (alive c) eqn:Hc.
    + rewrite filter_cons_False, filter_cons_True by (by rewrite Hc).
      replace (pre ++ c :: l) with ((pre ++ [c]) ++ l) by (by rewrite <- app_assoc).
      rewrite IH; [by rewrite <- app_assoc|].
      apply Forall_app. split; [done | by repeat constructor].
    + rewrite filter_cons_True, filter_cons_False by (by rewrite Hc).
      cbn [foldl]. unfold disconnect at 2. cbn [active_connections connection_info].
      rewrite bool_decide_eq_true_2
        by (apply elem_of_app; right; apply list_elem_of_here).
      rewrite list_remove_app_notin; [by apply IH|].
      intros Hin. rewrite Forall_forall in Hpre. specialize (Hpre c Hin). congruence.
Qed.

Lemma lookup_delete_all (info : gmap WebSocket ConnectionInfo)
    (dead : list WebSocket) (c : WebSocket) :
  foldl (λ m c, delete c m) info dead !! c
  = if bool_decide (c ∈ dead) then None else info !! c.
Proof.
  revert info. induction dead as [|d dead IH]; intros info; cbn [foldl].
  - by rewrite bool_decide_eq_false_2 by apply not_elem_of_nil.
  - rewrite IH. destruct (decide (c = d)) as [->|Hcd].
    + rewrite lookup_delete_eq.
      rewrite (bool_decide_eq_true_2 (d ∈ d :: dead)) by apply list_elem_of_here.
      by destruct (bool_decide _).
    + rewrite lookup_delete_ne by done.
      destruct (decide (c ∈ dead)) as [Hin|Hnin].
      * rewrite !bool_decide_eq_true_2; [done | by apply list_elem_of_further | done].
      * rewrite !bool_decide_eq_false_2; [done | | done].
        by apply not_elem_of_cons.
Qed.

(** C8: with no subscriber [broadcast] sends nothing and leaves the manager
    as it is; otherwise the serialized message goes to every subscriber
    whose send does not fail, in order, and the subscribers left are exactly
    those, the ones whose send failed having lost their place in the list
    and their [connection_info] entry within the call. *)
Theorem C8_broadcast (message : Dict) (self : t) :
  (∀ info,
     broadcast send_text message
       {| active_connections := []; connection_info := info |}
     = ([], {| active_connections := []; connection_info := info |})) ∧
  (broadcast send_text message self).1
  = (λ c, (c, json_dumps message)) <$>
      filter (λ c, send_text c (json_dumps message) = true) (active_connections self) ∧
  active_connections (broadcast send_text message self).2
  = filter (λ c, send_text c (json_dumps message) = true) (active_connections self) ∧
  ∀ c,
    connection_info (broadcast send_text message self).2 !! c
    = if bool_decide (c ∈ active_connections self)
         && negb (send_text c (json_dumps message))
      then None
      else connection_info self !! c.
Proof.
  split; [done|].
  destruct self as [conns info]. unfold broadcast. cbn [active_connections].
  destruct conns as [|c0 conns0] eqn:Hconns.
  { cbn. split; [done|]. split; [done|]. intros c.
    by rewrite bool_decide_eq_false_2 by apply not_elem_of_nil. }
  rewrite <- Hconns. clear Hconns c0 conns0.
  rewrite broadcast_send_spec. cbn [app fst snd].
  rewrite (disconnect_dead (λ c, send_text c (json_dumps message)) conns [] info)
    by constructor.
  cbn [app fst snd active_connections connection_info].
  split; [done|]. split; [done|].
  intros c. rewrite lookup_delete_all.
  destruct (decide (c ∈ conns)) as [Hin|Hnin].
  - rewrite (bool_decide_eq_true_2 (c ∈ conns)) by done. cbn.
    destruct (send_text c (json_dumps message)) eqn:Hc; cbn.
    + rewrite bool_decide_eq_false_2; [done|].
      intros Hd. apply list_elem_of_filter in Hd as [Hd _]. congruence.
    + rewrite bool_decide_eq_true_2; [done|]. by apply list_elem_of_filter.
  - rewrite (bool_decide_eq_false_2 (c ∈ conns)) by done. cbn.
    rewrite bool_decide_eq_false_2; [done|].
    intros Hd. by apply list_elem_of_filter in Hd as [_ Hd].
Qed.

End broadcast_proofs.

(** Three subscribers of which the second is dead: the other two get the
    message, and the second is gone from the list and from
    [connection_info]. *)
Example broadcast_three_subscribers :
  let r := WebSocketManager.broadcast second_is_dead
             [("type", AStr "device_disconnected")] three_subscribers in
  WebSocketManager.active_connections three_subscribers = [1; 2; 3]%positive ∧
  r.1 = [(1%positive, "{type}"); (3%positive, "{type}")] ∧
  WebSocketManager.active_connections r.2 = [1; 3]%positive ∧
  WebSocketManager.connection_info r.2 !! 2%positive = None ∧
  WebSocketManager.get_connection_count r.2 = 2.
Proof. vm_compute. repeat split; reflexivity. Qed.

(** ** More of the session on concrete inputs *)

Lemma sign_transaction_while_pending_witness :
  WalletSpec.ready (Session.run unlocked_session DeviceSimulator.init) ∧
  DeviceSimulator.pending_transaction
    (DeviceSimulator.sign_transaction sample_env sample_transaction
       (Session.run unlocked_session DeviceSimulator.init)).2
  = Some sample_transaction.
Proof.
  split; [by repeat split|].
  apply (sign_transaction_while_pending sample_env sample_env sample_transaction
           sample_transaction (Session.run unlocked_session DeviceSimulator.init)).
  by repeat split.
Defined.

Lemma sign_then_confirm_witness :
  WalletSpec.ready (Session.run unlocked_session DeviceSimulator.init) ∧
  WalletSpec.ready
    (DeviceSimulator.confirm_transaction sample_env false
       (DeviceSimulator.sign_transaction sample_env sample_transaction
          (Session.run unlocked_session DeviceSimulator.init)).2).2.
Proof.
  split; [by repeat split|].
  apply (sign_then_confirm sample_env sample_env sample_transaction false
           (Session.run unlocked_session DeviceSimulator.init) ledger_nano_s);
    [by repeat split | reflexivity].
Defined.

Lemma generate_address_frame_witness :
  DeviceSimulator.state
    (DeviceSimulator.generate_address sample_env "m/44'/60'/0'/0/0"
       (Session.run unlocked_session DeviceSimulator.init)).2
  = DeviceSimulator.state (Session.run unlocked_session DeviceSimulator.init).
Proof.
  apply (generate_address_frame sample_env "m/44'/60'/0'/0/0"
           (Session.run unlocked_session DeviceSimulator.init) ledger_nano_s);
    reflexivity.
Defined.

Lemma unlock_correct_pin_witness :
  DeviceSimulator.pin_attempts (Session.run one_wrong_pin_session DeviceSimulator.init) = 1 ∧
  DeviceSimulator.pin_attempts
    (DeviceSimulator.unlock_device sample_env DeviceSimulator.default_pin
       (Session.run one_wrong_pin_session DeviceSimulator.init)).2 = 0.
Proof.
  split; [reflexivity|].
  apply (unlock_correct_pin sample_env
           (Session.run one_wrong_pin_session DeviceSimulator.init) ledger_nano_s);
    reflexivity.
Defined.

Lemma disconnect_log_entry_witness :
  ∃ entry,
    DeviceSimulator.logs
      (DeviceSimulator.disconnect_device sample_env
         (Session.run unlocked_session DeviceSimulator.init)).2
    = SessionSpec.last_n 100
        (DeviceSimulator.logs (Session.run unlocked_session DeviceSimulator.init)
         ++ [entry]) ∧
    LogEntry.level entry = LogLevel.WARNING ∧
    LogEntry.message entry = DeviceInfo.name ledger_nano_s +:+ " disconnected" ∧
    LogEntry.device_type entry = None.
Proof.
  apply (disconnect_log_entry sample_env
           (Session.run unlocked_session DeviceSimulator.init) ledger_nano_s);
    reflexivity.
Defined.

Lemma disconnect_then_status_witness :
  DeviceSimulator.state
    (DeviceSimulator.disconnect_device sample_env
       (Session.run signing_session DeviceSimulator.init)).2
  = DeviceState.default ∧
  DeviceSimulator.pending_transaction
    (DeviceSimulator.disconnect_device sample_env
       (Session.run signing_session DeviceSimulator.init)).2
  = None.
Proof.
  destruct (disconnect_then_status sample_env
              (Session.run signing_session DeviceSimulator.init) eq_refl)
    as (_ & Hstate & Hpending & _).
  by split.
Defined.

Lemma confirm_true_response_witness :
  DeviceState.screen
    (DeviceSimulator.state
       (DeviceSimulator.confirm_transaction sample_env true
          (Session.run signing_session DeviceSimulator.init)).2)
  = DeviceScreen.WALLET.
Proof.
  apply (confirm_true_response sample_env
           (Session.run signing_session DeviceSimulator.init)
           sample_transaction ledger_nano_s);
    reflexivity.
Defined.

(** The wallet of each device type after unlocking. *)
Example unlocked_wallet_of_trezor :
  let self :=
    Session.run
      [(sample_env, Session.Connect {|
          DeviceInfo.device_type := DeviceType.TREZOR;
          DeviceInfo.name := "Trezor Model T";
          DeviceInfo.firmware_version := Some "1.0.0";
          DeviceInfo.serial_number := None |});
       (sample_env, Session.Unlock "1234")] DeviceSimulator.init in
  DeviceState.address (DeviceSimulator.state self)
  = "octra1abc123def456ghi789jkl012mno345pqr678stu" ∧
  DeviceState.balance (DeviceSimulator.state self) = "89.45123456".
Proof. vm_compute. by split. Qed.

Lemma call_raise_unchanged_witness :
  (Session.call sample_env (Session.SignTransaction sample_transaction)
     DeviceSimulator.init).1 = Raise SessionSpec.not_connected ∧
  (Session.call sample_env (Session.SignTransaction sample_transaction)
     DeviceSimulator.init).2 = DeviceSimulator.init.
Proof.
  split; [reflexivity|].
  apply (call_raise_unchanged sample_env (Session.SignTransaction sample_transaction)
           DeviceSimulator.init SessionSpec.not_connected);
    [reflexivity | discriminate].
Defined.

(** * Proofs: more of the computation stub *)

Section fhe_more_proofs.
Import FHEService FHEEncrypt.
Context `{!Runtime}.

Lemma operation_costs_lookup operation :
  default 100 (operation_costs !! FHEOperation.value operation) = gas_of operation.
Proof. by destruct operation. Qed.

(** No exception leaves [perform_computation]: it returns a result for
    every request, either the computed value with [success] and the
    operation's gas cost, or, when [_mock_compute] raised, the empty value
    with [success = false], the error's text and no gas. *)
Theorem perform_computation_never_raises (env : Env) (request : FHEComputeRequest.t) :
  ∃ r,
    perform_computation env request = Ok r ∧
    FHEComputeResult.operation r = FHEComputeRequest.operation request ∧
    ((FHEComputeResult.success r = true ∧
      FHEComputeResult.error_message r = None ∧
      FHEComputeResult.gas_used r = gas_of (FHEComputeRequest.operation request) ∧
      _mock_compute (FHEComputeRequest.operation request)
        (FHEComputeRequest.operands request) = Ok (FHEComputeResult.result r))
     ∨
     (FHEComputeResult.success r = false ∧
      FHEComputeResult.gas_used r = 0 ∧
      FHEComputeResult.result r = empty_value ∧
      ∃ e,
        _mock_compute (FHEComputeRequest.operation request)
          (FHEComputeRequest.operands request) = Raise e ∧
        FHEComputeResult.error_message r = Some (str_of_exn e))).
Proof.
  unfold perform_computation, time_sleep.
  destruct (_mock_compute _ _) as [v|e] eqn:Hcompute.
  - eexists. split; [reflexivity|]. cbn. split; [done|]. left.
    rewrite operation_costs_lookup. repeat split.
  - cbn. eexists. split; [reflexivity|]. cbn. split; [done|]. right.
    repeat split. by exists e.
Qed.

(** The result of a computation on valid operands is itself within the
    model's bounds, with a noise level of at least 2, and has the data type
    of the first operand whatever the types of the others. *)
Theorem _mock_compute_result_valid (operation : FHEOperation.t)
    (first : EncryptedValue.t) (others : list EncryptedValue.t) :
  Forall EncryptedValue.valid (first :: others) →
  ∃ r,
    _mock_compute operation (first :: others) = Ok r ∧
    EncryptedValue.data_type r = EncryptedValue.data_type first ∧
    2 ≤ EncryptedValue.noise_level r ≤ 10 ∧
    EncryptedValue.valid r.
Proof.
  intros Hvalid.
  destruct (_mock_compute_spec operation (first :: others))
    as (r & m & Hr & Hin & Hall & Hnoise & _).
  { apply Forall_cons in Hvalid as [[Hx _] _]. apply Exists_cons_hd. lia. }
  assert (Hm : 1 ≤ m).
  { apply list_elem_of_fmap in Hin as (y & -> & Hy).
    rewrite Forall_forall in Hvalid. destruct (Hvalid y Hy). lia. }
  exists r. split; [done|]. unfold EncryptedValue.valid. rewrite Hnoise.
  split; [|lia].
  unfold _mock_compute in Hr. cbn [fmap list_fmap] in Hr.
  unfold EncryptedValue.new in Hr. destruct (EncryptedValue.noise_level_ok _); [|done].
  by simplify_eq.
Qed.

(** The noise budget runs out: when results are fed back round after round
    from a valid value of noise level [n], the result of round [i]
    (counting from 0) has a noise level of at least [min(n + i + 1, 10)],
    and once [n + i >= 7] it can no longer be computed on. *)
Theorem compute_chain_exhausts (rounds : list (FHEOperation.t * list EncryptedValue.t))
    (previous : EncryptedValue.t) :
  EncryptedValue.valid previous →
  ∃ rs,
    compute_chain rounds previous = Ok rs ∧
    ∀ (i : nat) r,
      rs !! i = Some r →
      Z.min (EncryptedValue.noise_level previous + Z.of_nat i + 1) 10
      ≤ EncryptedValue.noise_level r ∧
      (7 ≤ EncryptedValue.noise_level previous + Z.of_nat i →
       EncryptedValue.can_compute r = false).
Proof.
  revert previous. induction rounds as [|[operation others] rounds IH];
    intros previous Hprev; cbn [compute_chain].
  - exists []. split; [done|]. intros i r Hi. by rewrite lookup_nil in Hi.
  - destruct (_mock_compute_spec operation (previous :: others))
      as (r & m & -> & Hin & Hall & Hnoise & Hcan).
    { apply Exists_cons_hd. destruct Hprev. lia. }
    cbn [fmap list_fmap] in Hall. apply Forall_cons in Hall as [Hle _].
    destruct Hprev as [Hlo Hhi].
    destruct (IH r) as (rs & -> & Hrs); [unfold EncryptedValue.valid; lia|].
    exists (r :: rs). split; [done|]. intros [|i] r' Hi; cbn in Hi.
    + simplify_eq. split; [lia|]. intros H7. rewrite Hcan.
      apply bool_decide_eq_false_2. lia.
    + destruct (Hrs i r' Hi) as [Hbound Hstop]. split; [lia|].
      intros H7. apply Hstop. lia.
Qed.

(** A freshly encrypted value is valid and computable, with the noise level
    [random.randint(1, 3)] gave it; and a computation on fresh values only
    succeeds, with a result of noise level 2 to 4 that can be computed on
    again. *)
Theorem encrypt_then_compute (env : Env) (operation : FHEOperation.t)
    (parameters : option Dict) (operands : list EncryptedValue.t) :
  (∀ plaintext_str now_str randint data_type,
     1 ≤ randint ≤ 3 →
     encrypt_value plaintext_str now_str randint data_type
     = Ok {| EncryptedValue.encrypted_data :=
               sha256_hexdigest ("FHE_" +:+ plaintext_str +:+ "_" +:+ now_str);
             EncryptedValue.data_type := data_type;
             EncryptedValue.can_compute := true;
             EncryptedValue.noise_level := randint |}) ∧
  (operands ≠ [] →
   Forall (λ v, 1 ≤ EncryptedValue.noise_level v ≤ 3) operands →
   ∃ r,
     perform_computation env {|
       FHEComputeRequest.operation := operation;
       FHEComputeRequest.operands := operands;
       FHEComputeRequest.parameters := parameters |} = Ok r ∧
     FHEComputeResult.success r = true ∧
     2 ≤ EncryptedValue.noise_level (FHEComputeResult.result r) ≤ 4 ∧
     EncryptedValue.can_compute (FHEComputeResult.result r) = true).
Proof.
  split.
  - intros plaintext_str now_str randint data_type Hr.
    unfold encrypt_value. by rewrite new_ok by lia.
  - intros Hne Hfresh.
    destruct (_mock_compute_spec operation operands)
      as (v & m & Hv & Hin & Hall & Hnoise & Hcan).
    { destruct operands as [|x operands]; [done|].
      apply Forall_cons in Hfresh as [Hx _]. apply Exists_cons_hd. lia. }
    assert (Hm : 1 ≤ m ≤ 3).
    { apply list_elem_of_fmap in Hin as (y & -> & Hy).
      rewrite Forall_forall in Hfresh. apply (Hfresh y Hy). }
    unfold perform_computation, time_sleep. cbn. rewrite Hv.
    eexists. split; [reflexivity|]. cbn. split; [done|]. split; [lia|].
    rewrite Hcan. apply bool_decide_eq_true_2. lia.
Qed.

End fhe_more_proofs.

Lemma _mock_compute_result_valid_witness :
  ∃ r,
    FHEService._mock_compute FHEOperation.MAX sample_operands = Ok r ∧
    EncryptedValue.data_type r = FHEDataType.DECIMAL ∧
    2 ≤ EncryptedValue.noise_level r ≤ 10 ∧
    EncryptedValue.valid r.
Proof.
  apply (_mock_compute_result_valid FHEOperation.MAX).
  repeat constructor; cbn; lia.
Defined.

Lemma compute_chain_exhausts_witness :
  ∃ rs,
    FHEService.compute_chain (replicate 8 (FHEOperation.ADD, [])) FHEEncrypt.empty_value
    = Ok rs ∧
    ∀ (i : nat) r,
      rs !! i = Some r →
      Z.min (1 + Z.of_nat i + 1) 10 ≤ EncryptedValue.noise_level r ∧
      (7 ≤ 1 + Z.of_nat i → EncryptedValue.can_compute r = false).
Proof.
  apply (compute_chain_exhausts (replicate 8 (FHEOperation.ADD, []))
           FHEEncrypt.empty_value).
  unfold EncryptedValue.valid. cbn. lia.
Defined.

(** * Proofs: more of the broadcast hub *)

Section hub_proofs.
Import WebSocketManager BroadcastHub.
Context `{!Runtime}.

Lemma list_remove_notin (x : WebSocket) (l : list WebSocket) :
  x ∉ l → list_remove x l = l.
Proof.
  induction l as [|y l IH]; intros Hx; cbn; [done|].
  apply not_elem_of_cons in Hx as [Hxy Hx].
  rewrite bool_decide_eq_false_2 by done. by rewrite IH.
Qed.

Lemma elem_of_list_remove (x y : WebSocket) (l : list WebSocket) :
  y ≠ x → y ∈ list_remove x l ↔ y ∈ l.
Proof.
  intros Hyx. induction l as [|z l IH]; cbn; [done|].
  case_bool_decide as Hxz.
  - subst z. rewrite elem_of_cons. split; [by right | by intros [?|?]].
  - rewrite !elem_of_cons, IH. done.
Qed.

Lemma list_remove_NoDup (x : WebSocket) (l : list WebSocket) :
  NoDup l → NoDup (list_remove x l) ∧ x ∉ list_remove x l.
Proof.
  induction 1 as [|y l Hy Hl IH]; cbn.
  - split; [constructor | apply not_elem_of_nil].
  - case_bool_decide as Hxy.
    + subst y. done.
    + destruct IH as [IH1 IH2]. split.
      * constructor; [|done]. by rewrite elem_of_list_remove.
      * apply not_elem_of_cons. done.
Qed.

Lemma length_list_remove (x : WebSocket) (l : list WebSocket) :
  x ∈ l → S (length (list_remove x l)) = length l.
Proof.
  induction l as [|y l IH]; cbn; intros Hx; [by apply elem_of_nil in Hx|].
  case_bool_decide as Hxy; [done|].
  apply elem_of_cons in Hx as [?|Hx]; [done|]. cbn. by rewrite IH.
Qed.

(** [disconnect] concerns one connection only: it does nothing when the
    connection is not subscribed, takes exactly one place off the list when
    it is, and leaves every other connection's place and entry alone. *)
Theorem disconnect_frame (websocket : WebSocket) (self : t) :
  (websocket ∉ active_connections self → disconnect websocket self = self) ∧
  (websocket ∈ active_connections self →
   S (length (active_connections (disconnect websocket self)))
   = length (active_connections self) ∧
   connection_info (disconnect websocket self) !! websocket = None) ∧
  ∀ other,
    other ≠ websocket →
    (other ∈ active_connections (disconnect websocket self)
     ↔ other ∈ active_connections self) ∧
    connection_info (disconnect websocket self) !! other
    = connection_info self !! other.
Proof.
  unfold disconnect. split; [|split].
  - intros Hnot. by rewrite bool_decide_eq_false_2.
  - intros Hin. rewrite bool_decide_eq_true_2 by done. cbn.
    split; [by apply length_list_remove | apply lookup_delete_eq].
  - intros other Hother. case_bool_decide; cbn; [|done].
    split; [by apply elem_of_list_remove | by apply lookup_delete_ne].
Qed.

(** Subscribing a new connection and unsubscribing it again gives back
    the manager as it was. *)
Theorem connect_disconnect_round_trip (send_text : WebSocket → string → bool)
    (env : Env) (websocket : WebSocket) (self : t) :
  websocket ∉ active_connections self →
  connection_info self !! websocket = None →
  disconnect websocket (connect send_text env websocket self).2 = self.
Proof.
  intros Hnot Hinfo. destruct self as [conns info]; cbn in *.
  unfold connect, send_personal_message. cbn.
  assert (Hrm : list_remove websocket (conns ++ [websocket]) = conns).
  { rewrite list_remove_app_notin by done. apply app_nil_r. }
  assert (Hin : websocket ∈ conns ++ [websocket]).
  { apply elem_of_app. right. apply list_elem_of_here. }
  destruct (send_text websocket _); cbn.
  - unfold disconnect. cbn. rewrite bool_decide_eq_true_2 by done.
    by rewrite Hrm, delete_insert_eq, delete_id.
  - unfold disconnect at 2. cbn. rewrite bool_decide_eq_true_2 by done.
    rewrite Hrm, delete_insert_eq, delete_id by done.
    unfold disconnect. cbn. by rewrite bool_decide_eq_false_2.
Qed.

(** A connection whose welcome message cannot be sent is not left
    subscribed: [connect] sends nothing and the manager is as before. *)
Theorem connect_failed_welcome (send_text : WebSocket → string → bool)
    (env : Env) (websocket : WebSocket) (self : t) :
  (∀ message_str, send_text websocket message_str = false) →
  websocket ∉ active_connections self →
  connection_info self !! websocket = None →
  connect send_text env websocket self = ([], self).
Proof.
  intros Hfail Hnot Hinfo. destruct self as [conns info]; cbn in *.
  unfold connect, send_personal_message. cbn. rewrite Hfail.
  unfold disconnect. cbn.
  rewrite bool_decide_eq_true_2
    by (apply elem_of_app; right; apply list_elem_of_here).
  rewrite list_remove_app_notin by done.
  by rewrite app_nil_r, delete_insert_eq, delete_id.
Qed.

(** [connect] with a working transport: the welcome goes to the new
    connection alone, which is subscribed last and gets its entry. *)
Theorem connect_subscribes (send_text : WebSocket → string → bool)
    (env : Env) (websocket : WebSocket) (self : t) :
  (∀ message_str, send_text websocket message_str = true) →
  let r := connect send_text env websocket self in
  (∃ message_str, r.1 = [(websocket, message_str)]) ∧
  active_connections r.2 = active_connections self ++ [websocket] ∧
  client_id <$> connection_info r.2 !! websocket = Some websocket ∧
  get_connection_count r.2 = get_connection_count self + 1.
Proof.
  intros Hok. unfold connect, send_personal_message. cbn. rewrite Hok. cbn.
  split; [eauto|]. split; [done|]. split; [by rewrite lookup_insert_eq|].
  unfold get_connection_count. cbn. rewrite length_app. cbn. lia.
Qed.

Lemma disconnect_consistent (websocket : WebSocket) (self : t) :
  consistent self → consistent (disconnect websocket self).
Proof.
  intros [Hnd Hiff]. unfold disconnect. case_bool_decide as Hin; [|done].
  destruct (list_remove_NoDup websocket _ Hnd) as [Hnd' Hnot].
  split; cbn; [done|]. intros ws. destruct (decide (ws = websocket)) as [->|Hne].
  - rewrite lookup_delete_eq. split; [done | by intros []].
  - by rewrite elem_of_list_remove, lookup_delete_ne, Hiff.
Qed.

Lemma foldl_disconnect_consistent (dead : list WebSocket) (self : t) :
  consistent self →
  consistent (foldl (λ self connection, disconnect connection self) self dead).
Proof.
  revert self. induction dead as [|d dead IH]; intros self Hc; cbn; [done|].
  by apply IH, disconnect_consistent.
Qed.

Lemma broadcast_consistent send_text (message : Dict) (self : t) :
  consistent self → consistent (broadcast send_text message self).2.
Proof.
  intros Hc. unfold broadcast. destruct (active_connections self) eqn:Hconns; [done|].
  rewrite <- Hconns. destruct (broadcast_send _ _ _ _ _) as [sent dead]. cbn.
  by apply foldl_disconnect_consistent.
Qed.

Lemma send_personal_message_consistent send_text message websocket (self : t) :
  consistent self → consistent (send_personal_message send_text message websocket self).2.
Proof.
  intros Hc. unfold send_personal_message.
  destruct (send_text _ _); cbn; [done | by apply disconnect_consistent].
Qed.

Lemma call_consistent send_text (op : Op) (self : t) :
  consistent self →
  match op with
  | Connect _ websocket => websocket ∉ active_connections self
  | _ => True
  end →
  consistent (call send_text op self).2.
Proof.
  intros Hc Hfresh. destruct op; cbn [call].
  - unfold connect. apply send_personal_message_consistent.
    destruct Hc as [Hnd Hiff]. split; cbn.
    + apply NoDup_app. split; [done|]. split; [|apply NoDup_singleton].
      intros x Hx Hx'. apply list_elem_of_singleton in Hx'. by subst.
    + intros ws. rewrite elem_of_app, list_elem_of_singleton.
      destruct (decide (ws = websocket)) as [->|Hne].
      * rewrite lookup_insert_eq. split; [by eexists | by right].
      * rewrite lookup_insert_ne by done. rewrite <- Hiff.
        split; [by intros [?|?] | by left].
  - by apply disconnect_consistent.
  - by apply send_personal_message_consistent.
  - by apply broadcast_consistent.
  - by apply broadcast_consistent.
  - by apply broadcast_consistent.
Qed.

(** As long as no connection is subscribed twice, the list of subscribers
    and the table of their details stay in step through every call: no
    duplicate in the list, an entry for exactly the listed connections, and
    so as many entries as [get_connection_count] counts. *)
Theorem hub_consistent (calls : list ((WebSocket → string → bool) * Op)) :
  connects_fresh calls init →
  consistent (run calls init) ∧
  get_connection_count (run calls init)
  = Z.of_nat (size (connection_info (run calls init))).
Proof.
  intros Hfresh.
  assert (Hgen : ∀ self, consistent self → connects_fresh calls self →
                         consistent (run calls self)).
  { clear Hfresh. induction calls as [|[send_text op] calls IH];
      intros self Hc Hfresh; cbn in *; [done|].
    destruct Hfresh as [Hop Hrest]. by apply IH; [apply call_consistent|]. }
  assert (Hc : consistent (run calls init)).
  { apply Hgen; [|done]. split; cbn; [constructor|].
    intros ws. rewrite lookup_empty. split; [by intros ?%elem_of_nil | by intros []]. }
  split; [done|]. destruct Hc as [Hnd Hiff].
  unfold get_connection_count. f_equal.
  rewrite <- size_dom, <- (size_list_to_set (C := gset WebSocket)) by done.
  f_equal. apply set_eq. intros ws. by rewrite elem_of_list_to_set, elem_of_dom, Hiff.
Qed.

(** What [broadcast] returns and leaves, as one equation. *)
Lemma broadcast_eq send_text (message : Dict) (self : t) :
  broadcast send_text message self
  = ((λ c, (c, json_dumps message)) <$>
       filter (λ c, send_text c (json_dumps message) = true) (active_connections self),
     {| active_connections :=
          filter (λ c, send_text c (json_dumps message) = true) (active_connections self);
        connection_info :=
          foldl (λ m c, delete c m) (connection_info self)
            (filter (λ c, send_text c (json_dumps message) = false)
               (active_connections self)) |}).
Proof.
  destruct self as [conns info]. unfold broadcast. cbn [active_connections].
  destruct conns as [|c0 conns0] eqn:Hconns; [done|].
  rewrite <- Hconns. clear Hconns c0 conns0.
  rewrite broadcast_send_spec. cbn [app fst snd].
  by rewrite (disconnect_dead (λ c, send_text c (json_dumps message)) conns [] info)
    by constructor.
Qed.

Lemma filter_alive_again (alive : WebSocket → bool) (l : list WebSocket) :
  filter (λ c, alive c = true) (filter (λ c, alive c = true) l)
  = filter (λ c, alive c = true) l ∧
  filter (λ c, alive c = false) (filter (λ c, alive c = true) l) = [].
Proof.
  induction l as [|c l [IH1 IH2]]; [done|].
  destruct (alive c) eqn:Hc.
  - rewrite (filter_cons_True _ c l) by done.
    rewrite filter_cons_True, filter_cons_False by (by rewrite Hc).
    by rewrite IH1, IH2.
  - by rewrite (filter_cons_False _ c l) by (by rewrite Hc).
Qed.

(** Broadcasting the same message again over the same transport reaches
    the same subscribers and unsubscribes nobody: the first pass has left
    only connections that take the message. *)
Theorem broadcast_again send_text (message : Dict) (self : t) :
  broadcast send_text message (broadcast send_text message self).2
  = ((broadcast send_text message self).1, (broadcast send_text message self).2).
Proof.
  rewrite (broadcast_eq send_text message self). cbn [fst snd].
  rewrite broadcast_eq. cbn [active_connections connection_info].
  destruct (filter_alive_again (λ c, send_text c (json_dumps message))
              (active_connections self)) as [-> ->].
  done.
Qed.

End hub_proofs.

Lemma connect_disconnect_round_trip_witness :
  WebSocketManager.disconnect 4%positive
    (WebSocketManager.connect (λ _ _, true) sample_env 4%positive three_subscribers).2
  = three_subscribers.
Proof.
  apply (connect_disconnect_round_trip (λ _ _, true) sample_env 4%positive
           three_subscribers).
  - apply (bool_decide_unpack _). by vm_compute.
  - reflexivity.
Defined.

Lemma connect_failed_welcome_witness :
  WebSocketManager.connect (λ _ _, false) sample_env 4%positive three_subscribers
  = ([], three_subscribers).
Proof.
  apply (connect_failed_welcome (λ _ _, false) sample_env 4%positive three_subscribers).
  - reflexivity.
  - apply (bool_decide_unpack _). by vm_compute.
  - reflexivity.
Defined.

Lemma connect_subscribes_witness :
  WebSocketManager.active_connections
    (WebSocketManager.connect (λ _ _, true) sample_env 4%positive three_subscribers).2
  = [1; 2; 3; 4]%positive.
Proof.
  apply (connect_subscribes (λ _ _, true) sample_env 4%positive three_subscribers).
  reflexivity.
Defined.

Lemma hub_consistent_witness :
  BroadcastHub.connects_fresh hub_session WebSocketManager.init ∧
  BroadcastHub.consistent (BroadcastHub.run hub_session WebSocketManager.init).
Proof.
  assert (Hfresh : BroadcastHub.connects_fresh hub_session WebSocketManager.init).
  { cbn. repeat split; apply (bool_decide_unpack _); by vm_compute. }
  split; [exact Hfresh|]. apply (hub_consistent hub_session Hfresh).
Defined.

(** * Proofs: the XOR mock of [OctraCrypto] *)

Section crypto_proofs.
Import OctraCrypto.

Lemma hex_byte (x : Byte.byte) :
  is_space (hex_digit (Byte.to_N x / 16)) = false ∧
  digit_value (hex_digit (Byte.to_N x / 16)) = Some (Byte.to_N x / 16)%N ∧
  digit_value (hex_digit (Byte.to_N x mod 16)) = Some (Byte.to_N x mod 16)%N ∧
  Byte.of_N (Byte.to_N x / 16 * 16 + Byte.to_N x mod 16) = Some x.
Proof. destruct x; vm_compute; done. Qed.

(** [bytes.fromhex] undoes [hex]: every byte string comes back from its
    hex form, which has two digits a byte. *)
Theorem fromhex_hex (b : bytes) :
  fromhex (hex b) = Returns b ∧ String.length (hex b) = (2 * length b)%nat.
Proof.
  induction b as [|x b [IH1 IH2]]; [done|].
  destruct (hex_byte x) as (Hsp & Htop & Hbot & Hbyte).
  cbn [hex fromhex]. rewrite Hsp, Htop, Hbot, IH1, Hbyte. cbn. split; [done|].
  rewrite IH2. lia.
Qed.

Lemma byte_xor_comm (a b : Byte.byte) : byte_xor a b = byte_xor b a.
Proof.
  unfold byte_xor.
  destruct (Byte.to_bits a) as (a0 & a1 & a2 & a3 & a4 & a5 & a6 & a7).
  destruct (Byte.to_bits b) as (b0 & b1 & b2 & b3 & b4 & b5 & b6 & b7).
  f_equal. repeat (f_equal; [apply xorb_comm|]). apply xorb_comm.
Qed.

Lemma byte_xor_nilpotent (a : Byte.byte) : byte_xor a a = Byte.x00.
Proof.
  unfold byte_xor.
  destruct (Byte.to_bits a) as (a0 & a1 & a2 & a3 & a4 & a5 & a6 & a7).
  by rewrite !xorb_nilpotent.
Qed.

Lemma byte_xor_x00_r (a : Byte.byte) : byte_xor a Byte.x00 = a.
Proof.
  unfold byte_xor. pose proof (Byte.of_bits_to_bits a) as Ha.
  destruct (Byte.to_bits a) as (a0 & a1 & a2 & a3 & a4 & a5 & a6 & a7).
  cbn. by rewrite !xorb_false_r.
Qed.

Lemma byte_xor_assoc (a b c : Byte.byte) :
  byte_xor (byte_xor a b) c = byte_xor a (byte_xor b c).
Proof.
  unfold byte_xor.
  destruct (Byte.to_bits a) as (a0 & a1 & a2 & a3 & a4 & a5 & a6 & a7).
  destruct (Byte.to_bits b) as (b0 & b1 & b2 & b3 & b4 & b5 & b6 & b7).
  destruct (Byte.to_bits c) as (c0 & c1 & c2 & c3 & c4 & c5 & c6 & c7).
  rewrite !Byte.to_bits_of_bits. by rewrite !xorb_assoc.
Qed.

Lemma byte_xor_cancel (a k : Byte.byte) : byte_xor (byte_xor a k) k = a.
Proof. by rewrite byte_xor_assoc, byte_xor_nilpotent, byte_xor_x00_r. Qed.

Lemma byte_xor_cancel_key (x y k : Byte.byte) :
  byte_xor (byte_xor x k) (byte_xor y k) = byte_xor x y.
Proof.
  rewrite byte_xor_assoc, (byte_xor_comm y k), <- (byte_xor_assoc k k y).
  by rewrite byte_xor_nilpotent, (byte_xor_comm Byte.x00), byte_xor_x00_r.
Qed.

Lemma xor_padded_comm (a b : bytes) : xor_padded a b = xor_padded b a.
Proof.
  unfold xor_padded. cbv zeta. rewrite Nat.max_comm.
  apply list_fmap_ext. intros _ i _. apply byte_xor_comm.
Qed.

Lemma xor_padded_length (a b : bytes) :
  length (xor_padded a b) = Nat.max (length a) (length b).
Proof. unfold xor_padded. cbv zeta. by rewrite length_fmap, length_seq. Qed.

Lemma xor_padded_lookup (a b : bytes) (i : nat) :
  (i < Nat.max (length a) (length b))%nat →
  xor_padded a b !! i
  = Some (byte_xor (default Byte.x00 (a !! i)) (default Byte.x00 (b !! i))).
Proof.
  intros Hi. unfold xor_padded. cbv zeta.
  rewrite list_lookup_fmap, lookup_seq_lt by done. done.
Qed.

Lemma xor_padded_self (a : bytes) : xor_padded a a = replicate (length a) Byte.x00.
Proof.
  apply list_eq. intros i.
  destruct (decide (i < length a)%nat) as [Hi|Hi].
  - rewrite xor_padded_lookup by lia. rewrite lookup_replicate_2 by done.
    by rewrite byte_xor_nilpotent.
  - rewrite !lookup_ge_None_2; [done | rewrite length_replicate; lia |].
    rewrite xor_padded_length. lia.
Qed.

Lemma fromhex_raises (s : string) (e : Exn) : fromhex s = Raises e → e = ValueError.
Proof.
  assert (Hgen : ∀ n s e, (String.length s ≤ n)%nat →
                          fromhex s = Raises e → e = ValueError).
  { clear s e. induction n as [|n IH]; intros [|c s] e Hlen; cbn [fromhex];
      try done; cbn in Hlen; [lia|].
    destruct (is_space c); [apply IH; lia|].
    destruct (digit_value c); [|by intros [= <-]].
    destruct s as [|d s]; [by intros [= <-]|].
    destruct (digit_value d); [|by intros [= <-]].
    destruct (fromhex s) as [b|e'] eqn:Hs; [done|].
    intros [= <-]. apply (IH s); [cbn in Hlen; lia | done]. }
  by apply (Hgen (String.length s)).
Qed.

(** [fhe_add_encrypted] does not depend on the order of its arguments,
    whether it returns or raises, and a ciphertext added to itself gives
    zero bytes only. *)
Theorem fhe_add_encrypted_comm_self (enc_a enc_b : string) (b : bytes) :
  fhe_add_encrypted enc_a enc_b = fhe_add_encrypted enc_b enc_a ∧
  (fromhex enc_a = Returns b →
   fhe_add_encrypted enc_a enc_a = Returns (hex (replicate (length b) Byte.x00))).
Proof.
  unfold fhe_add_encrypted. split.
  - destruct (fromhex enc_a) as [ba|ea] eqn:Ha, (fromhex enc_b) as [bb|eb] eqn:Hb;
      try done.
    + by rewrite xor_padded_comm.
    + by rewrite (fromhex_raises _ _ Ha), (fromhex_raises _ _ Hb).
  - intros ->. by rewrite xor_padded_self.
Qed.

(** The XOR of the loop, byte by byte. *)
Lemma xor_with_key_lookup (key_bytes : bytes) (i : nat) (data_bytes : bytes) :
  key_bytes ≠ [] →
  ∃ encrypted,
    xor_with_key key_bytes i data_bytes = Returns encrypted ∧
    length encrypted = length data_bytes ∧
    ∀ j x,
      data_bytes !! j = Some x →
      encrypted !! j
      = Some (byte_xor x (default Byte.x00
                            (key_bytes !! ((i + j) mod length key_bytes)%nat))).
Proof.
  intros Hkey. revert i. induction data_bytes as [|x data_bytes IH]; intros i.
  - exists []. split; [done|]. split; [done|]. intros j y Hj.
    by rewrite lookup_nil in Hj.
  - cbn [xor_with_key].
    destruct (length key_bytes) as [|n] eqn:Hn; [by destruct key_bytes|].
    rewrite <- Hn.
    destruct (IH (S i)) as (encrypted & -> & Hlen & Hlookup).
    eexists. split; [reflexivity|]. split; [cbn; by rewrite Hlen|].
    intros [|j] y Hj; cbn in Hj.
    + simplify_eq. cbn. by rewrite Nat.add_0_r.
    + change (encrypted !! j
              = Some (byte_xor y (default Byte.x00
                        (key_bytes !! ((i + S j) mod length key_bytes)%nat)))).
      rewrite (Hlookup j y Hj), Hn.
      by replace (S i + j)%nat with (i + S j)%nat by lia.
Qed.

(** The mock's one homomorphic property: two texts of the same length in
    bytes, encrypted under the same non-empty key, add up to the XOR of the
    texts themselves, the key cancelling out. *)
Theorem fhe_add_cancels_key (env : Env) (key : string) (key_bytes : bytes)
    (data_a data_b : string) :
  fromhex key = Returns key_bytes →
  key_bytes ≠ [] →
  length (String.list_byte_of_string data_a)
  = length (String.list_byte_of_string data_b) →
  ∃ enc_a enc_b,
    encrypted_data (create_fhe_encrypted_data env data_a (Some key)) = Some enc_a ∧
    encrypted_data (create_fhe_encrypted_data env data_b (Some key)) = Some enc_b ∧
    fhe_add_encrypted enc_a enc_b
    = Returns (hex (xor_padded (String.list_byte_of_string data_a)
                               (String.list_byte_of_string data_b))).
Proof.
  intros Hkey Hne Hlen. unfold create_fhe_encrypted_data. rewrite Hkey.
  destruct (xor_with_key_lookup key_bytes 0 (String.list_byte_of_string data_a) Hne)
    as (ca & -> & Hla & Ha).
  destruct (xor_with_key_lookup key_bytes 0 (String.list_byte_of_string data_b) Hne)
    as (cb & -> & Hlb & Hb).
  cbn. eexists _, _. split; [reflexivity|]. split; [reflexivity|].
  unfold fhe_add_encrypted.
  rewrite (proj1 (fromhex_hex ca)), (proj1 (fromhex_hex cb)). do 2 f_equal.
  apply list_eq. intros i.
  destruct (decide (i < length (String.list_byte_of_string data_a))%nat) as [Hi|Hi].
  - rewrite !xor_padded_lookup by lia.
    destruct (lookup_lt_is_Some_2 (String.list_byte_of_string data_a) i Hi) as [x Hx].
    destruct (lookup_lt_is_Some_2 (String.list_byte_of_string data_b) i) as [y Hy];
      [lia|].
    rewrite (Ha i x Hx), (Hb i y Hy), Hx, Hy. cbn. f_equal.
    apply byte_xor_cancel_key.
  - rewrite !lookup_ge_None_2; [done | |]; rewrite xor_padded_length; lia.
Qed.

(** Encrypting twice under the same non-empty key gives back the text:
    when the ciphertext bytes are themselves a text, the mock applied to it
    returns the hex form of the original. *)
Theorem create_fhe_encrypted_data_twice (env : Env) (key : string) (key_bytes : bytes)
    (data : string) :
  fromhex key = Returns key_bytes →
  key_bytes ≠ [] →
  ∃ encrypted,
    encrypted_data (create_fhe_encrypted_data env data (Some key))
    = Some (hex encrypted) ∧
    length encrypted = length (String.list_byte_of_string data) ∧
    encrypted_data
      (create_fhe_encrypted_data env (String.string_of_list_byte encrypted) (Some key))
    = Some (hex (String.list_byte_of_string data)).
Proof.
  intros Hkey Hne. unfold create_fhe_encrypted_data. rewrite Hkey.
  destruct (xor_with_key_lookup key_bytes 0 (String.list_byte_of_string data) Hne)
    as (c & -> & Hlc & Hc).
  exists c. split; [done|]. split; [done|].
  rewrite String.list_byte_of_string_of_list_byte.
  destruct (xor_with_key_lookup key_bytes 0 c Hne) as (d & -> & Hld & Hd).
  cbn. do 2 f_equal. apply list_eq. intros i.
  destruct (decide (i < length c)%nat) as [Hi|Hi].
  - destruct (lookup_lt_is_Some_2 c i Hi) as [y Hy].
    destruct (lookup_lt_is_Some_2 (String.list_byte_of_string data) i) as [x Hx];
      [lia|].
    rewrite (Hd i y Hy), Hx. rewrite (Hc i x Hx) in Hy. simplify_eq.
    by rewrite byte_xor_cancel.
  - rewrite !lookup_ge_None_2; [done | lia | lia].
Qed.

(** The edge cases of the key: a key that is not hex makes
    [create_fhe_encrypted_data] raise [ValueError]; an empty key makes it
    raise [ZeroDivisionError] on any text but the empty one, for which it
    returns an empty ciphertext. *)
Theorem create_fhe_encrypted_data_key_errors (env : Env) (key data : string) :
  (fromhex key = Raises ValueError →
   create_fhe_encrypted_data env data (Some key) = Raises ValueError) ∧
  (fromhex key = Returns [] →
   data ≠ "" →
   create_fhe_encrypted_data env data (Some key) = Raises ZeroDivisionError) ∧
  (fromhex key = Returns [] →
   encrypted_data (create_fhe_encrypted_data env "" (Some key)) = Some "").
Proof.
  unfold create_fhe_encrypted_data. split; [|split].
  - by intros ->.
  - intros -> Hdata. destruct data as [|c data]; [done|]. done.
  - by intros ->.
Qed.

End crypto_proofs.

Lemma fhe_add_encrypted_comm_self_witness :
  OctraCrypto.fhe_add_encrypted "b769de" "FF 00" = OctraCrypto.fhe_add_encrypted "FF 00" "b769de" ∧
  OctraCrypto.fhe_add_encrypted "b769de" "b769de" = OctraCrypto.Returns "000000".
Proof.
  destruct (fhe_add_encrypted_comm_self "b769de" "FF 00"
              [Byte.xb7; Byte.x69; Byte.xde]) as [Hcomm Hself].
  split; [exact Hcomm | apply Hself; reflexivity].
Defined.

Lemma fhe_add_cancels_key_witness :
  ∃ enc_a enc_b,
    OctraCrypto.encrypted_data
      (OctraCrypto.create_fhe_encrypted_data sample_env "Hi!" (Some "ff00")) = Some enc_a ∧
    OctraCrypto.encrypted_data
      (OctraCrypto.create_fhe_encrypted_data sample_env "abc" (Some "ff00")) = Some enc_b ∧
    OctraCrypto.fhe_add_encrypted enc_a enc_b
    = OctraCrypto.Returns
        (OctraCrypto.hex
           (OctraCrypto.xor_padded (String.list_byte_of_string "Hi!")
              (String.list_byte_of_string "abc"))).
Proof.
  apply (fhe_add_cancels_key sample_env "ff00" [Byte.xff; Byte.x00] "Hi!" "abc");
    [reflexivity | discriminate | reflexivity].
Defined.

Lemma create_fhe_encrypted_data_twice_witness :
  ∃ encrypted,
    OctraCrypto.encrypted_data
      (OctraCrypto.create_fhe_encrypted_data sample_env "Hi!" (Some "0102"))
    = Some (OctraCrypto.hex encrypted) ∧
    length encrypted = length (String.list_byte_of_string "Hi!") ∧
    OctraCrypto.encrypted_data
      (OctraCrypto.create_fhe_encrypted_data sample_env
         (String.string_of_list_byte encrypted) (Some "0102"))
    = Some (OctraCrypto.hex (String.list_byte_of_string "Hi!")).
Proof.
  apply (create_fhe_encrypted_data_twice sample_env "0102" [Byte.x01; Byte.x02] "Hi!");
    [reflexivity | discriminate].
Defined.

Lemma create_fhe_encrypted_data_key_errors_witness :
  OctraCrypto.create_fhe_encrypted_data sample_env "Hi!" (Some "xyz")
  = OctraCrypto.Raises OctraCrypto.ValueError ∧
  OctraCrypto.create_fhe_encrypted_data sample_env "Hi!" (Some "")
  = OctraCrypto.Raises OctraCrypto.ZeroDivisionError ∧
  OctraCrypto.encrypted_data
    (OctraCrypto.create_fhe_encrypted_data sample_env "" (Some "")) = Some "".
Proof.
  split; [|split].
  - apply (create_fhe_encrypted_data_key_errors sample_env "xyz" "Hi!"). reflexivity.
  - apply (create_fhe_encrypted_data_key_errors sample_env "" "Hi!");
      [reflexivity | discriminate].
  - apply (create_fhe_encrypted_data_key_errors sample_env "" "Hi!"). reflexivity.
Defined.

(** White space between bytes and digits of either case are read; a lone
    digit or white space inside a byte is refused. *)
Example fromhex_forms :
  OctraCrypto.fromhex "48 69 2A" = OctraCrypto.Returns [Byte.x48; Byte.x69; Byte.x2a] ∧
  OctraCrypto.fromhex "4 8" = OctraCrypto.Raises OctraCrypto.ValueError ∧
  OctraCrypto.fromhex "486" = OctraCrypto.Raises OctraCrypto.ValueError.
Proof. repeat split. Qed.

(** * Proofs: the request handlers *)

Section handler_proofs.
Import Main SessionSpec.
Context `{!Runtime}.
Variable class_timestamp : datetime.
Variable str_HTTPException : Z → string → string.
Variable send_text : WebSocketManager.WebSocket → string → bool.

Abbreviation handle := (Main.handle class_timestamp str_HTTPException send_text).

Lemma bind_ret_Raise {A B} (m : DeviceSimulator.M A) (f : A → B) self e self' :
  m self = (Raise e, self') →
  (a ← m; mret (f a)) self = (Raise e, self').
Proof. intros Hm. unfold mbind, DeviceSimulator.M_bind. by rewrite Hm. Qed.

(** What a method that raises leaves of the simulator. *)
Lemma method_raise_state env op self e self' :
  Session.call env op self = (Raise e, self') →
  (e = device_locked ∧ (∃ pin, op = Session.Unlock pin) ∧
   DeviceSimulator.is_connected self' = false) ∨
  self' = self.
Proof.
  intros Hc. pose proof (call_raise_state env op self e) as Hs.
  rewrite Hc in Hs. by apply Hs.
Qed.

Ltac unfold_simulator :=
  unfold DeviceSimulator.unlock_device, DeviceSimulator.sign_transaction,
    DeviceSimulator.clear_logs;
  unfold mbind, DeviceSimulator.M_bind, mret, DeviceSimulator.M_ret,
    DeviceSimulator.get, DeviceSimulator.modify_state, DeviceSimulator.modify,
    DeviceSimulator.raise, DeviceSimulator.asyncio_sleep.

(** A request that is refused is answered with status 400, sends nothing
    to any subscriber and leaves the hub as it was; the simulator is as it
    was too, unless the refusal is the PIN lock-out, which disconnects the
    device. *)
Theorem rejected_request_is_silent (env : Env) (now : datetime) (request : Request)
    (app : App) :
  let r := handle env now request app in
  is_rejected r.1.1 = true →
  r.1.2 = [] ∧
  websocket_manager r.2 = websocket_manager app ∧
  (∃ detail, r.1.1 = HTTPException 400 detail) ∧
  (device_simulator r.2 = device_simulator app ∨
   (∃ pin_data, request = PutUnlock pin_data) ∧
   r.1.1 = HTTPException 400
             "Unlock failed: Device locked due to too many invalid PIN attempts" ∧
   DeviceSimulator.is_connected (device_simulator r.2) = false).
Proof.
  destruct request as [device_info| |pin_data|transaction|confirmation_data]; cbn zeta;
    unfold Main.handle.
  - unfold connect_device.
    destruct (DeviceSimulator.connect_device _ _ _) as [[d|e] s] eqn:Hm.
    { by destruct (WebSocketManager.broadcast _ _ _). }
    intros _. cbn. split; [done|]. split; [done|]. split; [by eexists|].
    apply (bind_ret_Raise _ Session.VDict) in Hm.
    destruct (method_raise_state env (Session.Connect device_info) _ _ _ Hm)
      as [(_ & [pin ?] & _)| ->]; [done|by left].
  - unfold disconnect_device.
    destruct (DeviceSimulator.disconnect_device _ _) as [[d|e] s] eqn:Hm.
    { by destruct (WebSocketManager.broadcast _ _ _). }
    intros _. cbn. split; [done|]. split; [done|]. split; [by eexists|].
    apply (bind_ret_Raise _ Session.VDict) in Hm.
    destruct (method_raise_state env Session.Disconnect _ _ _ Hm)
      as [(_ & [pin ?] & _)| ->]; [done|by left].
  - unfold unlock_device. cbn zeta.
    destruct (negb (truthy _)).
    { intros _. cbn. split; [done|]. split; [done|]. split; [by eexists|by left]. }
    destruct (DeviceSimulator.unlock_device _ _ _) as [[d|e] s] eqn:Hm.
    { by destruct (WebSocketManager.broadcast _ _ _). }
    intros _. cbn. split; [done|]. split; [done|]. split; [by eexists|].
    apply (bind_ret_Raise _ Session.VDict) in Hm.
    destruct (method_raise_state env (Session.Unlock _) _ _ _ Hm)
      as [(-> & _ & Hd)| ->]; [right|by left].
    split; [by eexists|]. by split.
  - unfold sign_transaction.
    destruct (negb (DeviceSimulator.is_connected _)).
    { intros _. cbn. split; [done|]. split; [done|]. split; [by eexists|by left]. }
    destruct (negb (DeviceSimulator.is_unlocked _)).
    { intros _. cbn. split; [done|]. split; [done|]. split; [by eexists|by left]. }
    destruct (DeviceSimulator.sign_transaction _ _ _) as [[d|e] s] eqn:Hm.
    { by destruct (WebSocketManager.broadcast _ _ _). }
    intros _. cbn. split; [done|]. split; [done|]. split; [by eexists|].
    apply (bind_ret_Raise _ Session.VDict) in Hm.
    destruct (method_raise_state env (Session.SignTransaction transaction) _ _ _ Hm)
      as [(_ & [pin ?] & _)| ->]; [done|by left].
  - unfold confirm_transaction. cbn zeta.
    destruct (DeviceSimulator.confirm_transaction _ _ _) as [[d|e] s] eqn:Hm.
    { by destruct (WebSocketManager.broadcast _ _ _). }
    intros _. cbn. split; [done|]. split; [done|]. split; [by eexists|].
    apply (bind_ret_Raise _ Session.VDict) in Hm.
    destruct (method_raise_state env (Session.ConfirmTransaction _) _ _ _ Hm)
      as [(_ & [pin ?] & _)| ->]; [done|by left].
Qed.

(** A request that is accepted broadcasts exactly one event, of a type of
    its own, and what is sent and what is left of the hub are those of that
    one [broadcast]. *)
Theorem accepted_request_broadcasts (env : Env) (now : datetime) (request : Request)
    (app : App) :
  let r := handle env now request app in
  is_rejected r.1.1 = false →
  ∃ (message : Dict) (type : string),
    dict_get "type" message = Some (AStr type) ∧
    type ∈ event_types request ∧
    dict_get "timestamp" message = Some (AStr (isoformat now)) ∧
    (r.1.2, websocket_manager r.2)
    = WebSocketManager.broadcast send_text message (websocket_manager app).
Proof.
  destruct request as [device_info| |pin_data|transaction|confirmation_data]; cbn zeta;
    unfold Main.handle.
  - unfold connect_device.
    destruct (DeviceSimulator.connect_device _ _ _) as [[d|e] s]; [|done].
    destruct (WebSocketManager.broadcast _ _ _) as [sent manager] eqn:Hb.
    intros _. eexists _, _. rewrite Hb. cbn.
    split; [done|]. split; [|done]. set_solver.
  - unfold disconnect_device.
    destruct (DeviceSimulator.disconnect_device _ _) as [[d|e] s]; [|done].
    destruct (WebSocketManager.broadcast _ _ _) as [sent manager] eqn:Hb.
    intros _. eexists _, _. rewrite Hb. cbn.
    split; [done|]. split; [|done]. set_solver.
  - unfold unlock_device. cbn zeta.
    destruct (negb (truthy _)); [done|].
    destruct (DeviceSimulator.unlock_device _ _ _) as [[d|e] s]; [|done].
    destruct (WebSocketManager.broadcast _ _ _) as [sent manager] eqn:Hb.
    intros _. eexists _, _. rewrite Hb. cbn.
    split; [done|]. split; [|done]. destruct (truthy _); set_solver.
  - unfold sign_transaction.
    destruct (negb (DeviceSimulator.is_connected _)); [done|].
    destruct (negb (DeviceSimulator.is_unlocked _)); [done|].
    destruct (DeviceSimulator.sign_transaction _ _ _) as [[d|e] s]; [|done].
    destruct (WebSocketManager.broadcast _ _ _) as [sent manager] eqn:Hb.
    intros _. eexists _, _. rewrite Hb. cbn.
    split; [done|]. split; [|done]. set_solver.
  - unfold confirm_transaction. cbn zeta.
    destruct (DeviceSimulator.confirm_transaction _ _ _) as [[d|e] s]; [|done].
    destruct (WebSocketManager.broadcast _ _ _) as [sent manager] eqn:Hb.
    intros _. eexists _, _. rewrite Hb. cbn.
    split; [done|]. split; [|done]. destruct (truthy _); set_solver.
Qed.

(** A sign request is accepted exactly when the device is connected and
    unlocked and no transaction is pending.  Accepted, it is answered with
    a plain dict around the simulator's result, on the confirm screen, and
    the transaction is the pending one; refused, it changes nothing. *)
Theorem sign_request_accepted_iff (env : Env) (now : datetime)
    (transaction : TransactionRequest.t) (app : App) :
  let simulator := device_simulator app in
  let r := handle env now (PostSign transaction) app in
  if DeviceSimulator.is_connected simulator && DeviceSimulator.is_unlocked simulator
     && negb (DeviceState.awaiting_confirmation (DeviceSimulator.state simulator))
  then
    ∃ result,
      r.1.1 = ReturnedDict [("success", ABool true);
                            ("data", ADict result);
                            ("message", AStr "Transaction signing initiated")] ∧
      dict_get "screen" result = Some (AStr "confirm") ∧
      DeviceSimulator.pending_transaction (device_simulator r.2) = Some transaction
  else is_rejected r.1.1 = true ∧ r.2 = app.
Proof.
  destruct app as [[[c u sc b a aw la di] lg pt pa] manager].
  unfold Main.handle, sign_transaction, DeviceSimulator.is_connected,
    DeviceSimulator.is_unlocked.
  destruct c, u, aw; cbn; try done; unfold_simulator; cbn; try done.
  rewrite _add_log_eq. cbn -[last_n].
  destruct (WebSocketManager.broadcast _ _ _) as [sent manager']. cbn.
  by eexists.
Qed.

(** A wrong PIN on a connected, locked device.  The attempt that uses up
    the last one is refused with the lock-out as detail, nothing is
    broadcast and the device is disconnected.  Any earlier one is answered
    as a success whose data say [unlocked: false], and ["unlock_failed"] is
    broadcast. *)
Theorem unlock_request_wrong_pin (env : Env) (now : datetime) (pin_data : Dict)
    (pin : string) (app : App) :
  let simulator := device_simulator app in
  let r := handle env now (PutUnlock pin_data) app in
  let remaining :=
    DeviceSimulator.max_pin_attempts - (DeviceSimulator.pin_attempts simulator + 1) in
  dict_get "pin" pin_data = Some (AStr pin) →
  pin ≠ "" →
  pin ≠ DeviceSimulator.default_pin →
  DeviceSimulator.is_connected simulator = true →
  DeviceSimulator.is_unlocked simulator = false →
  if remaining <=? 0
  then
    r.1.1 = HTTPException 400
              "Unlock failed: Device locked due to too many invalid PIN attempts" ∧
    r.1.2 = [] ∧
    DeviceSimulator.is_connected (device_simulator r.2) = false
  else
    r.1.1 = Returned (api_response class_timestamp (wrong_pin_response remaining)
                        "Device unlock attempt completed") ∧
    (r.1.2, websocket_manager r.2)
    = WebSocketManager.broadcast send_text
        [("type", AStr "unlock_failed"); ("timestamp", AStr (isoformat now))]
        (websocket_manager app) ∧
    DeviceSimulator.is_connected (device_simulator r.2) = true.
Proof.
  cbn zeta. intros Hpin Hne Hwrong Hc Hu.
  unfold Main.handle, unlock_device. rewrite Hpin. cbn [default from_option id truthy pin_of].
  apply String.eqb_neq in Hne. rewrite Hne. cbn [negb].
  pose proof (unlock_wrong_pin env pin (device_simulator app) Hc Hu Hwrong) as Hw.
  cbn zeta in Hw. destruct Hw as (_ & _ & Hw).
  destruct (_ <=? 0).
  - destruct Hw as [Hr Hd].
    destruct (DeviceSimulator.unlock_device _ _ _) as [[d|e] s]; cbn in *; [done|].
    by simplify_eq.
  - destruct Hw as [Hr Hd].
    destruct (DeviceSimulator.unlock_device _ _ _) as [[d|e] s]; cbn in *; [|done].
    simplify_eq. cbn.
    by destruct (WebSocketManager.broadcast _ _ _) as [sent manager'].
Qed.

(** Clearing the logs cannot fail: the answer is always the success
    response, never the 500 of the handler's [except]; nothing is sent and
    only the log of the simulator changes. *)
Theorem clear_device_logs_never_fails (env : Env) (app : App) :
  let r := clear_device_logs class_timestamp env app in
  r.1.1 = Returned (api_response class_timestamp [("cleared", ABool true)]
                      "Logs cleared successfully") ∧
  r.1.2 = [] ∧
  websocket_manager r.2 = websocket_manager app ∧
  DeviceSimulator.state (device_simulator r.2) = DeviceSimulator.state (device_simulator app) ∧
  DeviceSimulator.pending_transaction (device_simulator r.2)
  = DeviceSimulator.pending_transaction (device_simulator app) ∧
  DeviceSimulator.pin_attempts (device_simulator r.2)
  = DeviceSimulator.pin_attempts (device_simulator app).
Proof.
  unfold clear_device_logs. unfold_simulator. cbn. by rewrite _add_log_eq.
Qed.

(** No request adds a subscriber, and a hub whose list and table agree is
    left so by every request. *)
Theorem handle_keeps_hub_consistent (env : Env) (now : datetime) (request : Request)
    (app : App) :
  let r := handle env now request app in
  BroadcastHub.consistent (websocket_manager app) →
  BroadcastHub.consistent (websocket_manager r.2) ∧
  WebSocketManager.active_connections (websocket_manager r.2)
  ⊆ WebSocketManager.active_connections (websocket_manager app).
Proof.
  cbn zeta. intros Hc.
  assert (Hb : ∀ message,
    BroadcastHub.consistent
      (WebSocketManager.broadcast send_text message (websocket_manager app)).2 ∧
    WebSocketManager.active_connections
      (WebSocketManager.broadcast send_text message (websocket_manager app)).2
    ⊆ WebSocketManager.active_connections (websocket_manager app)).
  { intros message. split; [by apply broadcast_consistent|].
    rewrite broadcast_eq. cbn. intros c Hin.
    by apply list_elem_of_filter in Hin as [_ ?]. }
  destruct request as [device_info| |pin_data|transaction|confirmation_data];
    unfold Main.handle.
  - unfold connect_device.
    destruct (DeviceSimulator.connect_device _ _ _) as [[d|e] s]; [|done].
    match goal with |- context [WebSocketManager.broadcast _ ?m _] =>
      specialize (Hb m) end.
    by destruct (WebSocketManager.broadcast _ _ _).
  - unfold disconnect_device.
    destruct (DeviceSimulator.disconnect_device _ _) as [[d|e] s]; [|done].
    match goal with |- context [WebSocketManager.broadcast _ ?m _] =>
      specialize (Hb m) end.
    by destruct (WebSocketManager.broadcast _ _ _).
  - unfold unlock_device. cbn zeta.
    destruct (negb (truthy _)); [done|].
    destruct (DeviceSimulator.unlock_device _ _ _) as [[d|e] s]; [|done].
    match goal with |- context [WebSocketManager.broadcast _ ?m _] =>
      specialize (Hb m) end.
    by destruct (WebSocketManager.broadcast _ _ _).
  - unfold sign_transaction.
    destruct (negb (DeviceSimulator.is_connected _)); [done|].
    destruct (negb (DeviceSimulator.is_unlocked _)); [done|].
    destruct (DeviceSimulator.sign_transaction _ _ _) as [[d|e] s]; [|done].
    match goal with |- context [WebSocketManager.broadcast _ ?m _] =>
      specialize (Hb m) end.
    by destruct (WebSocketManager.broadcast _ _ _).
  - unfold confirm_transaction. cbn zeta.
    destruct (DeviceSimulator.confirm_transaction _ _ _) as [[d|e] s]; [|done].
    match goal with |- context [WebSocketManager.broadcast _ ?m _] =>
      specialize (Hb m) end.
    by destruct (WebSocketManager.broadcast _ _ _).
Qed.

End handler_proofs.

Lemma rejected_request_is_silent_witness :
  Main.is_rejected (sample_handle Main.PostDisconnect fresh_app).1.1 = true ∧
  (sample_handle Main.PostDisconnect fresh_app).1.2 = [] ∧
  Main.websocket_manager (sample_handle Main.PostDisconnect fresh_app).2
  = three_subscribers.
Proof.
  assert (Hr : Main.is_rejected (sample_handle Main.PostDisconnect fresh_app).1.1 = true)
    by reflexivity.
  split; [exact Hr|].
  pose proof (rejected_request_is_silent 0 sample_str_HTTPException second_is_dead
                sample_env 5 Main.PostDisconnect fresh_app Hr) as (Hs & Hm & _).
  split; [exact Hs|exact Hm].
Defined.

Lemma accepted_request_broadcasts_witness :
  Main.is_rejected (sample_handle (Main.PostConnect ledger_nano_s) fresh_app).1.1 = false ∧
  ∃ (message : Dict) (type : string),
    dict_get "type" message = Some (AStr type) ∧
    type ∈ Main.event_types (Main.PostConnect ledger_nano_s) ∧
    dict_get "timestamp" message = Some (AStr (isoformat 5)) ∧
    ((sample_handle (Main.PostConnect ledger_nano_s) fresh_app).1.2,
     Main.websocket_manager (sample_handle (Main.PostConnect ledger_nano_s) fresh_app).2)
    = WebSocketManager.broadcast second_is_dead message three_subscribers.
Proof.
  assert (Hr : Main.is_rejected
                 (sample_handle (Main.PostConnect ledger_nano_s) fresh_app).1.1 = false)
    by reflexivity.
  split; [exact Hr|].
  exact (accepted_request_broadcasts 0 sample_str_HTTPException second_is_dead
           sample_env 5 (Main.PostConnect ledger_nano_s) fresh_app Hr).
Defined.

Lemma unlock_request_wrong_pin_witness :
  DeviceSimulator.pin_attempts (Main.device_simulator one_wrong_pin_app) = 1 ∧
  (sample_handle (Main.PutUnlock [("pin", AStr "0000")]) one_wrong_pin_app).1.1
  = Main.Returned (Main.api_response 0 (SessionSpec.wrong_pin_response 1)
                     "Device unlock attempt completed") ∧
  (sample_handle (Main.PutUnlock [("pin", AStr "0000")]) one_wrong_pin_app).1.2
  = [(1%positive, json_dumps [("type", AStr "unlock_failed");
                              ("timestamp", AStr (isoformat 5))]);
     (3%positive, json_dumps [("type", AStr "unlock_failed");
                              ("timestamp", AStr (isoformat 5))])].
Proof.
  split; [reflexivity|].
  pose proof (unlock_request_wrong_pin 0 sample_str_HTTPException second_is_dead
                sample_env 5 [("pin", AStr "0000")] "0000" one_wrong_pin_app
                eq_refl) as Hw.
  cbn zeta in Hw.
  assert (Hne : "0000" ≠ "") by discriminate.
  assert (Hpin : "0000" ≠ DeviceSimulator.default_pin) by discriminate.
  destruct (Hw Hne Hpin eq_refl eq_refl) as (Hr & Hb & _).
  split; [exact Hr|]. exact (f_equal fst Hb).
Defined.

Lemma handle_keeps_hub_consistent_witness :
  BroadcastHub.consistent three_subscribers ∧
  BroadcastHub.consistent
    (Main.websocket_manager (sample_handle (Main.PostConnect ledger_nano_s) fresh_app).2) ∧
  WebSocketManager.active_connections
    (Main.websocket_manager (sample_handle (Main.PostConnect ledger_nano_s) fresh_app).2)
  ⊆ [1%positive; 2%positive; 3%positive].
Proof.
  assert (Hc : BroadcastHub.consistent three_subscribers).
  { split.
    - apply (bool_decide_unpack _). by vm_compute.
    - intros websocket. change (WebSocketManager.active_connections three_subscribers)
        with [1%positive; 2%positive; 3%positive].
      rewrite !elem_of_cons, elem_of_nil.
      split.
      + intros [->|[->|[->|[]]]]; by eexists.
      + intros [info Hinfo].
        destruct (decide (websocket = 1%positive)) as [->|?]; [by left|].
        destruct (decide (websocket = 2%positive)) as [->|?]; [by right; left|].
        destruct (decide (websocket = 3%positive)) as [->|?]; [by right; right; left|].
        exfalso. revert Hinfo. unfold three_subscribers, WebSocketManager.connect.
        cbn. by rewrite !lookup_insert_ne. }
  split; [exact Hc|].
  exact (handle_keeps_hub_consistent 0 sample_str_HTTPException second_is_dead
           sample_env 5 (Main.PostConnect ledger_nano_s) fresh_app Hc).
Defined.
